(** * Training-request approval workflow

    A shallow embedding of [backend/app/routes/training_requests.py]: the
    four routes of the [/training-requests] router, over an explicit model
    of the tables they query.  The routes read and write the database
    through a SQLAlchemy session; here a route is a function from the
    database to an outcome and the database it leaves behind. *)

From stdpp Require Import base decidable option list sorting strings gmap.
From Stdlib Require Import ZArith Lia Ascii.

Open Scope string_scope.
Open Scope list_scope.
Open Scope Z_scope.

(** ** The tables

    Timestamps are microseconds on the UTC clock.  Only the columns the
    routes read or write are kept. *)

(** Modelled from the spec: the mapped classes [TrainingDetail], [User],
    [ManagerEmployee] and [TrainingAssignment] of [app.models], which is
    not among the sources.  Their fields are the attributes the routes
    read and write, as section 3 of the specification describes them: a
    training is identified by its [id], a user by its [username], a
    directory row gives an employee's manager and display name, and an
    assignment copies three fields of a request.  No key is assumed on
    the directory. *)
Module TrainingDetail.
Record t := mk { id : Z }.
End TrainingDetail.

Module User.
Record t := mk { username : string }.
End User.

Module ManagerEmployee.
Record t := mk {
  manager_empid : string;
  employee_empid : string;
  employee_name : string
}.
End ManagerEmployee.

(** Columns as in the [CREATE TABLE training_requests] statement of
    [create_training_requests_table.py]: [id SERIAL PRIMARY KEY],
    [status VARCHAR DEFAULT 'pending'], nullable [manager_notes] and
    [response_date]. *)
Module TrainingRequest.
Record t := mk {
  id : Z;
  training_id : Z;
  employee_empid : string;
  manager_empid : string;
  request_date : Z;
  status : string;
  manager_notes : option string;
  response_date : option Z
}.
End TrainingRequest.

Module TrainingAssignment.
Record t := mk {
  training_id : Z;
  employee_empid : string;
  manager_empid : string
}.
End TrainingAssignment.

#[global] Instance TrainingDetail_eq_dec : EqDecision TrainingDetail.t.
Proof. solve_decision. Defined.
#[global] Instance User_eq_dec : EqDecision User.t.
Proof. solve_decision. Defined.
#[global] Instance ManagerEmployee_eq_dec : EqDecision ManagerEmployee.t.
Proof. solve_decision. Defined.
#[global] Instance TrainingRequest_eq_dec : EqDecision TrainingRequest.t.
Proof. solve_decision. Defined.
#[global] Instance TrainingAssignment_eq_dec : EqDecision TrainingAssignment.t.
Proof. solve_decision. Defined.

(** The database: the five tables and the sequence behind the [SERIAL]
    primary key of [training_requests].  Rows are kept in insertion
    order. *)
Record DB := mkDB {
  training_details : list TrainingDetail.t;
  users : list User.t;
  manager_employee : list ManagerEmployee.t;
  training_requests : list TrainingRequest.t;
  training_assignments : list TrainingAssignment.t;
  training_requests_id_seq : Z
}.

(** ** Request bodies

    Modelled from the spec: the request schemas [TrainingRequestCreate]
    and [TrainingRequestUpdate] of [app.schemas], which is not among the
    sources.  Their fields are the ones the routes read.  The status of a
    response is kept a string: the route compares it with the string
    ['approved'] and stores it in the [VARCHAR] column.  That a response
    submits ['approved'] or ['rejected'], as the specification describes
    the input, is a condition on the call where a statement needs it
    ([submits_decision] below). *)

Record TrainingRequestCreate := { create_training_id : Z }.

Record TrainingRequestUpdate := {
  update_status : string;
  update_manager_notes : option string
}.

(** ** Outcomes *)

Definition HTTP_400_BAD_REQUEST : Z := 400.
Definition HTTP_401_UNAUTHORIZED : Z := 401.
Definition HTTP_403_FORBIDDEN : Z := 403.
Definition HTTP_404_NOT_FOUND : Z := 404.

(** What a route can raise: the [HTTPException]s it raises itself, the
    errors of [scalar_one_or_none] and [scalar_one], the primary-key
    violation of an insert, and the [AttributeError] of reading
    [.username] off a missing [employee]. *)
Inductive Exception :=
  | HTTPException (status_code : Z) (detail : string)
  | MultipleResultsFound
  | NoResultFound
  | IntegrityError
  | AttributeError.

(** A route runs against the database and leaves a database behind, also
    when it raises: what was committed before the exception stays. *)
Definition Route (A : Type) : Type := DB → (Exception + A) * DB.

Definition ret {A} (x : A) : Route A := λ db, (inr x, db).

Definition raise {A} (e : Exception) : Route A := λ db, (inl e, db).

Definition bind {A B} (c : Route A) (k : A → Route B) : Route B :=
  λ db, match c db with
        | (inl e, db') => (inl e, db')
        | (inr x, db') => k x db'
        end.

(** [await db.execute(stmt)] for a [select]: reads, changes nothing. *)
Definition execute {A} (stmt : DB → A) : Route A := λ db, (inr (stmt db), db).

Definition lift {A} (r : Exception + A) : Route A :=
  match r with inl e => raise e | inr x => ret x end.

Notation "'let!' x ':=' c 'in' k" := (bind c (λ x, k))
  (at level 10, x name, c at level 100, k at level 200).

(** [Result.scalar_one_or_none()], [Result.scalar_one()], [Result.first()]. *)
Definition scalar_one_or_none {A} (rows : list A) : Exception + option A :=
  match rows with
  | [] => inr None
  | [x] => inr (Some x)
  | _ => inl MultipleResultsFound
  end.

Definition scalar_one {A} (rows : list A) : Exception + A :=
  match rows with
  | [] => inl NoResultFound
  | [x] => inr x
  | _ => inl MultipleResultsFound
  end.

Definition first {A} (rows : list A) : option A := head rows.

(** [.order_by(TrainingRequest.request_date.desc())]: latest first. *)
Definition later_first {A} (key : A → Z) : relation A := λ a b, key b ≤ key a.

#[global] Instance later_first_dec {A} (key : A → Z) (a b : A) :
  Decision (later_first key a b).
Proof. unfold later_first. apply _. Defined.

Definition order_by_desc {A} (key : A → Z) (rows : list A) : list A :=
  merge_sort (later_first key) rows.

(** [current_user.get("username")] followed by [if not current_username]:
    a missing key and the empty string are both refused.  The four routes
    open with these same lines. *)
Definition get_current_username (current_user : gmap string string) : Route string :=
  match current_user !! "username" with
  | None => raise (HTTPException HTTP_401_UNAUTHORIZED "Could not validate credentials")
  | Some current_username =>
      if decide (current_username = "")
      then raise (HTTPException HTTP_401_UNAUTHORIZED "Could not validate credentials")
      else ret current_username
  end.

(** ** Relationship loading

    [selectinload(TrainingRequest.training)] and
    [selectinload(TrainingRequest.employee)] follow the two foreign keys of
    the table: [training_id] to [training_details (id)] and
    [employee_empid] to [users (username)]. *)
Record LoadedRequest := {
  loaded_request : TrainingRequest.t;
  loaded_training : option TrainingDetail.t;
  loaded_employee : option User.t
}.

Definition selectinload (db : DB) (r : TrainingRequest.t) : LoadedRequest :=
  {| loaded_request := r;
     loaded_training :=
       head (filter (λ t, TrainingDetail.id t = TrainingRequest.training_id r)
                    (training_details db));
     loaded_employee :=
       head (filter (λ u, User.username u = TrainingRequest.employee_empid r)
                    (users db)) |}.

(** ** POST /training-requests/ *)

(** [db.add(new_request); await db.commit(); await db.refresh(new_request)]:
    the row gets the next value of the sequence as its [id] and [now] as
    its [request_date] (the column defaults); a taken primary key refuses
    the insert. *)
Definition add_training_request
    (training_id : Z) (employee_empid manager_empid status : string) (now : Z)
  : Route TrainingRequest.t :=
  λ db,
    let new_id := training_requests_id_seq db in
    let new_request :=
      TrainingRequest.mk new_id training_id employee_empid manager_empid
                         now status None None in
    if decide (new_id ∈ TrainingRequest.id <$> training_requests db)
    then (inl IntegrityError,
          mkDB (training_details db) (users db) (manager_employee db)
               (training_requests db) (training_assignments db) (new_id + 1))
    else (inr new_request,
          mkDB (training_details db) (users db) (manager_employee db)
               (training_requests db ++ [new_request])
               (training_assignments db) (new_id + 1)).

Definition create_training_request
    (request_data : TrainingRequestCreate)
    (current_user : gmap string string) (now : Z) : Route LoadedRequest :=
  let! current_username := get_current_username current_user in
  (* Verify the training exists *)
  let! training_result := execute (λ db,
      filter (λ t, TrainingDetail.id t = create_training_id request_data)
             (training_details db)) in
  let! training := lift (scalar_one_or_none training_result) in
  match training with
  | None => raise (HTTPException HTTP_404_NOT_FOUND "Training not found")
  | Some _ =>
  (* Find the employee's manager *)
  let! manager_result := execute (λ db,
      filter (λ me, ManagerEmployee.employee_empid me = current_username)
             (manager_employee db)) in
  let! manager_relation := lift (scalar_one_or_none manager_result) in
  match manager_relation with
  | None => raise (HTTPException HTTP_404_NOT_FOUND "No manager found for this employee")
  | Some manager_relation =>
  (* Check if request already exists *)
  let! existing_request_result := execute (λ db,
      filter (λ r, TrainingRequest.training_id r = create_training_id request_data
                   ∧ TrainingRequest.employee_empid r = current_username)
             (training_requests db)) in
  let! existing_request := lift (scalar_one_or_none existing_request_result) in
  match existing_request with
  | Some _ => raise (HTTPException HTTP_400_BAD_REQUEST
                       "You have already requested this training")
  | None =>
  (* Create the training request *)
  let! new_request :=
    add_training_request (create_training_id request_data) current_username
      (ManagerEmployee.manager_empid manager_relation) "pending" now in
  (* Fetch the complete request with training details and employee *)
  let! complete_request_result := execute (λ db,
      selectinload db <$>
        filter (λ r, TrainingRequest.id r = TrainingRequest.id new_request)
               (training_requests db)) in
  let! complete_request := lift (scalar_one complete_request_result) in
  ret complete_request
  end end end.

(** ** GET /training-requests/my *)

Definition get_my_training_requests
    (current_user : gmap string string) : Route (list LoadedRequest) :=
  let! current_username := get_current_username current_user in
  let! requests := execute (λ db,
      selectinload db <$>
        order_by_desc TrainingRequest.request_date
          (filter (λ r, TrainingRequest.employee_empid r = current_username)
                  (training_requests db))) in
  ret requests.

(** ** The response built by hand in the two manager routes *)

Module Employee.
Record t := mk { username : string; name : string }.
End Employee.

Module TrainingRequestResponse.
Record t := mk {
  id : Z;
  training_id : Z;
  employee_empid : string;
  manager_empid : string;
  request_date : Z;
  status : string;
  manager_notes : option string;
  response_date : option Z;
  training : option TrainingDetail.t;
  employee : Employee.t
}.
End TrainingRequestResponse.

(** [.join(ManagerEmployee, TrainingRequest.employee_empid ==
    ManagerEmployee.employee_empid)]: an inner join, one joined row per
    request and directory row of its employee. *)
Definition join_manager_employee (db : DB)
  : list (TrainingRequest.t * ManagerEmployee.t) :=
  r ← training_requests db;
  me ← filter (λ me, TrainingRequest.employee_empid r = ManagerEmployee.employee_empid me)
              (manager_employee db);
  [(r, me)].

(** The columns of [select(TrainingRequest, ManagerEmployee.employee_name)]. *)
Definition select_columns (joined : TrainingRequest.t * ManagerEmployee.t)
  : TrainingRequest.t * string :=
  (joined.1, ManagerEmployee.employee_name joined.2).

(** [request_dict = {...}] and the [TrainingRequestResponse] built from it,
    the same text in [get_pending_requests] and in [respond_to_request].
    [training_request.employee.username] raises when the relationship
    loaded nothing. *)
Definition request_dict (db : DB) (row : TrainingRequest.t * string)
  : Exception + TrainingRequestResponse.t :=
  let training_request := selectinload db row.1 in
  let employee_name := row.2 in
  match loaded_employee training_request with
  | None => inl AttributeError
  | Some employee =>
      inr (TrainingRequestResponse.mk
             (TrainingRequest.id (loaded_request training_request))
             (TrainingRequest.training_id (loaded_request training_request))
             (TrainingRequest.employee_empid (loaded_request training_request))
             (TrainingRequest.manager_empid (loaded_request training_request))
             (TrainingRequest.request_date (loaded_request training_request))
             (TrainingRequest.status (loaded_request training_request))
             (TrainingRequest.manager_notes (loaded_request training_request))
             (TrainingRequest.response_date (loaded_request training_request))
             (loaded_training training_request)
             (Employee.mk (User.username employee) employee_name))
  end.

(** [for row in rows: ... requests.append(...)]: the first row that raises
    ends the loop. *)
Fixpoint for_each {A B} (body : A → Exception + B) (rows : list A)
  : Exception + list B :=
  match rows with
  | [] => inr []
  | row :: rows' =>
      match body row with
      | inl e => inl e
      | inr x =>
          match for_each body rows' with
          | inl e => inl e
          | inr requests => inr (x :: requests)
          end
      end
  end.

(** ** GET /training-requests/pending *)

Definition pending_rows (current_username : string) (db : DB)
  : list (TrainingRequest.t * string) :=
  order_by_desc (λ row, TrainingRequest.request_date row.1)
    (select_columns <$>
       filter (λ joined, TrainingRequest.manager_empid joined.1 = current_username
                         ∧ TrainingRequest.status joined.1 = "pending")
              (join_manager_employee db)).

Definition get_pending_requests
    (current_user : gmap string string) : Route (list TrainingRequestResponse.t) :=
  let! current_username := get_current_username current_user in
  (* Join with ManagerEmployee to get employee name *)
  let! rows := execute (pending_rows current_username) in
  (* Convert to TrainingRequestResponse with employee name *)
  let! requests := λ db, lift (for_each (request_dict db) rows) db in
  ret requests.

(** ** PUT /training-requests/{request_id}/respond *)

Definition set_response (response_data : TrainingRequestUpdate) (now : Z)
    (r : TrainingRequest.t) : TrainingRequest.t :=
  TrainingRequest.mk
    (TrainingRequest.id r) (TrainingRequest.training_id r)
    (TrainingRequest.employee_empid r) (TrainingRequest.manager_empid r)
    (TrainingRequest.request_date r)
    (update_status response_data)
    (update_manager_notes response_data)
    (Some now).

(** The [UPDATE ... WHERE id = request_id] the session flushes for the
    modified [request]. *)
Definition update_row (request_id : Z) (response_data : TrainingRequestUpdate)
    (now : Z) (r : TrainingRequest.t) : TrainingRequest.t :=
  if decide (TrainingRequest.id r = request_id)
  then set_response response_data now r else r.

(** Lines 218-234: the three attribute writes on [request], the
    [TrainingAssignment] added when the submitted status is ['approved'],
    and the one [commit] that flushes both: an [UPDATE] of the row with the
    primary key of [request], and the [INSERT] of the assignment. *)
Definition commit_response
    (request : TrainingRequest.t) (response_data : TrainingRequestUpdate) (now : Z)
  : Route TrainingRequest.t :=
  λ db,
    let updated := set_response response_data now request in
    let assignment :=
      if decide (update_status response_data = "approved")
      then [TrainingAssignment.mk (TrainingRequest.training_id request)
                                  (TrainingRequest.employee_empid request)
                                  (TrainingRequest.manager_empid request)]
      else [] in
    (inr updated,
     mkDB (training_details db) (users db) (manager_employee db)
          (update_row (TrainingRequest.id request) response_data now
             <$> training_requests db)
          (training_assignments db ++ assignment)
          (training_requests_id_seq db)).

Definition respond_to_request
    (request_id : Z) (response_data : TrainingRequestUpdate)
    (current_user : gmap string string) (now : Z) : Route TrainingRequestResponse.t :=
  let! current_username := get_current_username current_user in
  (* Get the request *)
  let! result := execute (λ db,
      filter (λ r, TrainingRequest.id r = request_id) (training_requests db)) in
  let! request := lift (scalar_one_or_none result) in
  match request with
  | None => raise (HTTPException HTTP_404_NOT_FOUND "Training request not found")
  | Some request =>
  (* Verify the current user is the manager for this request *)
  if decide (TrainingRequest.manager_empid request ≠ current_username)
  then raise (HTTPException HTTP_403_FORBIDDEN
                "You are not authorized to respond to this request")
  else
  (* Check if request is still pending *)
  if decide (TrainingRequest.status request ≠ "pending")
  then raise (HTTPException HTTP_400_BAD_REQUEST
                "This request has already been responded to")
  else
  (* Update the request; if approved, create a training assignment *)
  let! request := commit_response request response_data now in
  (* Fetch the complete request with training details and employee info *)
  let! complete_request_result := execute (λ db,
      select_columns <$>
        filter (λ joined, TrainingRequest.id joined.1 = TrainingRequest.id request)
               (join_manager_employee db)) in
  match first complete_request_result with
  | None => raise (HTTPException HTTP_404_NOT_FOUND
                     "Training request not found after update")
  | Some row => λ db, lift (request_dict db row) db
  end
  end.

(** * Statements

    ** A running example

    Employee [e1] reports to [m1]; training 5 is on offer. *)
Definition db0 : DB :=
  mkDB [TrainingDetail.mk 5]
       [User.mk "e1"; User.mk "m1"]
       [ManagerEmployee.mk "m1" "e1" "Eve One"]
       [] [] 1.

Definition as_user (u : string) : gmap string string := {[ "username" := u ]}.

(** ** Vocabulary *)

(** The caller is authenticated as [u]. *)
Definition authenticated (current_user : gmap string string) (u : string) : Prop :=
  current_user !! "username" = Some u ∧ u ≠ "".

(** The requests stored for a (training, employee) pair. *)
Definition requests_for (db : DB) (training_id : Z) (employee_empid : string)
  : list TrainingRequest.t :=
  filter (λ r, TrainingRequest.training_id r = training_id
               ∧ TrainingRequest.employee_empid r = employee_empid)
         (training_requests db).

(** The catalog rows of a training, the directory rows of an employee. *)
Definition catalog_rows (db : DB) (training_id : Z) : list TrainingDetail.t :=
  filter (λ t, TrainingDetail.id t = training_id) (training_details db).

Definition directory_rows (db : DB) (employee_empid : string)
  : list ManagerEmployee.t :=
  filter (λ me, ManagerEmployee.employee_empid me = employee_empid)
         (manager_employee db).

(** The row [create_training_request] builds for employee [E] whose
    directory row is [me], and the database with a row appended. *)
Definition new_request (db : DB) (training_id : Z) (E : string)
    (me : ManagerEmployee.t) (now : Z) : TrainingRequest.t :=
  TrainingRequest.mk (training_requests_id_seq db) training_id E
    (ManagerEmployee.manager_empid me) now "pending" None None.

Definition inserted (db : DB) (r : TrainingRequest.t) : DB :=
  mkDB (training_details db) (users db) (manager_employee db)
       (training_requests db ++ [r]) (training_assignments db)
       (training_requests_id_seq db + 1).

(** The primary key of [training_requests]. *)
Definition primary_key (db : DB) : Prop :=
  NoDup (TrainingRequest.id <$> training_requests db).

(** ** Further stores, and the router as a state machine *)

(** The store after [e1] has requested training 5 at time 100. *)
Definition db1 : DB :=
  (create_training_request {| create_training_id := 5 |} (as_user "e1") 100 db0).2.

(** [db1] after the directory has lost the row of [e1]. *)
Definition db1_without_directory : DB :=
  mkDB (training_details db1) (users db1) [] (training_requests db1)
       (training_assignments db1) (training_requests_id_seq db1).

(** A store where all three checks of [create_training_request] would
    fail: training 5 is not in the catalog, [e1] has no directory row, and
    a request of [e1] for training 5 is stored. *)
Definition db_all_checks_fail : DB :=
  mkDB [] (users db1) [] (training_requests db1) [] 2.

(** A store with four requests, entered out of date order: two of [e1]
    and two of [e2]; the second is approved, the fourth went to [m2]. *)
Definition db_listing : DB :=
  mkDB [TrainingDetail.mk 5; TrainingDetail.mk 6]
       [User.mk "e1"; User.mk "e2"; User.mk "m1"; User.mk "m2"]
       [ManagerEmployee.mk "m1" "e1" "Eve One"; ManagerEmployee.mk "m1" "e2" "Ed Two"]
       [TrainingRequest.mk 1 5 "e1" "m1" 100 "pending" None None;
        TrainingRequest.mk 2 6 "e1" "m1" 300 "approved" (Some "ok") (Some 350);
        TrainingRequest.mk 3 5 "e2" "m1" 200 "pending" None None;
        TrainingRequest.mk 4 6 "e2" "m2" 250 "pending" None None]
       [TrainingAssignment.mk 6 "e1" "m1"]
       5.

(** The inner join, seen from the request side: each request is paired
    with the directory rows of its employee. *)
Definition joined_with_directory (db : DB) (requests : list TrainingRequest.t)
  : list (TrainingRequest.t * ManagerEmployee.t) :=
  r ← requests;
  me ← directory_rows db (TrainingRequest.employee_empid r);
  [(r, me)].

(** The foreign key [employee_empid REFERENCES users (username)]. *)
Definition employee_foreign_key (db : DB) : Prop :=
  ∀ r, r ∈ training_requests db →
    ∃ u, u ∈ users db ∧ User.username u = TrainingRequest.employee_empid r.

(** The request columns of a response. *)
Definition request_of_response (resp : TrainingRequestResponse.t)
  : TrainingRequest.t :=
  TrainingRequest.mk
    (TrainingRequestResponse.id resp)
    (TrainingRequestResponse.training_id resp)
    (TrainingRequestResponse.employee_empid resp)
    (TrainingRequestResponse.manager_empid resp)
    (TrainingRequestResponse.request_date resp)
    (TrainingRequestResponse.status resp)
    (TrainingRequestResponse.manager_notes resp)
    (TrainingRequestResponse.response_date resp).

(** The database [commit_response] leaves, and what the route answers
    from it: the re-fetch through the join and the response built from its
    first row. *)
Definition responded (db : DB) (request : TrainingRequest.t)
    (response_data : TrainingRequestUpdate) (now : Z) : DB :=
  (commit_response request response_data now db).2.

Definition refetched (db' : DB) (request_id : Z) : list (TrainingRequest.t * string) :=
  select_columns <$>
    filter (λ joined : TrainingRequest.t * ManagerEmployee.t,
              TrainingRequest.id joined.1 = request_id)
           (join_manager_employee db').

Definition not_found_after_update : Exception :=
  HTTPException HTTP_404_NOT_FOUND "Training request not found after update".

(** What a response does to the request store: the row of [req] is found
    under its [id] with the submitted status and notes and the response
    time, its other columns as they were; the rows with another [id] are
    as they were. *)
Definition transitioned (db db' : DB) (req : TrainingRequest.t)
    (st : string) (notes : option string) (now : Z) : Prop :=
  (∃ req',
     filter (λ r, TrainingRequest.id r = TrainingRequest.id req) (training_requests db')
     = [req']
     ∧ TrainingRequest.status req' = st
     ∧ TrainingRequest.manager_notes req' = notes
     ∧ TrainingRequest.response_date req' = Some now
     ∧ TrainingRequest.training_id req' = TrainingRequest.training_id req
     ∧ TrainingRequest.employee_empid req' = TrainingRequest.employee_empid req
     ∧ TrainingRequest.manager_empid req' = TrainingRequest.manager_empid req
     ∧ TrainingRequest.request_date req' = TrainingRequest.request_date req)
  ∧ filter (λ r, TrainingRequest.id r ≠ TrainingRequest.id req) (training_requests db')
    = filter (λ r, TrainingRequest.id r ≠ TrainingRequest.id req) (training_requests db).

Definition copied_from (a : TrainingAssignment.t) (req : TrainingRequest.t) : Prop :=
  TrainingAssignment.training_id a = TrainingRequest.training_id req
  ∧ TrainingAssignment.employee_empid a = TrainingRequest.employee_empid req
  ∧ TrainingAssignment.manager_empid a = TrainingRequest.manager_empid req.

(** The request of [e1] stored in [db1]. *)
Definition req1 : TrainingRequest.t :=
  TrainingRequest.mk 1 5 "e1" "m1" 100 "pending" None None.

(** The exceptions [respond_to_request] raises after its commit. *)
Definition raised_after_commit (e : Exception) : Prop :=
  e = not_found_after_update ∨ e = AttributeError.

(** [db1] after [m1] has approved the request of [e1] at time 200. *)
Definition db2 : DB :=
  (respond_to_request 1
     {| update_status := "approved"; update_manager_notes := Some "ok" |}
     (as_user "m1") 200 db1).2.

Definition req2 : TrainingRequest.t :=
  TrainingRequest.mk 1 5 "e1" "m1" 100 "approved" (Some "ok") (Some 200).

(** The calls of the router, and the database each leaves. *)
Inductive Call :=
  | CreateRequest (request_data : TrainingRequestCreate)
      (current_user : gmap string string) (now : Z)
  | ListMyRequests (current_user : gmap string string)
  | ListPendingRequests (current_user : gmap string string)
  | RespondToRequest (request_id : Z) (response_data : TrainingRequestUpdate)
      (current_user : gmap string string) (now : Z).

Definition run (c : Call) (db : DB) : DB :=
  match c with
  | CreateRequest request_data current_user now =>
      (create_training_request request_data current_user now db).2
  | ListMyRequests current_user =>
      (get_my_training_requests current_user db).2
  | ListPendingRequests current_user =>
      (get_pending_requests current_user db).2
  | RespondToRequest request_id response_data current_user now =>
      (respond_to_request request_id response_data current_user now db).2
  end.

Definition run_all (cs : list Call) (db : DB) : DB :=
  foldl (λ db c, run c db) db cs.

Definition statuses : list string := ["pending"; "approved"; "rejected"].

(** The call submits one of the two decisions, if it is a response. *)
Definition submits_decision (c : Call) : Prop :=
  match c with
  | RespondToRequest _ response_data _ _ =>
      update_status response_data = "approved"
      ∨ update_status response_data = "rejected"
  | _ => True
  end.

(** * The migration script

    [backend/create_training_requests_table.py] creates the
    [training_requests] table, or brings an existing one up to date, in one
    transaction.  The script is Python around SQL statements; the model
    keeps the Python as it is written and gives the database server the
    part of its catalog the script looks at. *)

Module Migration.

(** ** The catalog of the server

    The tables of the schema [public], as [information_schema.tables] and
    [information_schema.columns] show them, and the rows of [pg_indexes].
    The database is taken to have the one schema. *)

Record Column := mkColumn { column_name : string; column_definition : string }.

Record ForeignKey := mkForeignKey {
  fk_column : string;
  fk_table : string;
  fk_target : string
}.

Record Table := mkTable {
  columns : list Column;
  primary_key : list string;
  foreign_keys : list ForeignKey
}.

Record Index := mkIndex {
  indexname : string;
  tablename : string;
  indexed_column : string
}.

Record Catalog := mkCatalog {
  tables : gmap string Table;
  pg_indexes : list Index
}.

(** ** The statements the script sends *)

Inductive Statement :=
  | AlterTableAddColumn (table : string) (c : Column)
  | CreateIndex (name table column : string)
  | CreateTable (name : string) (t : Table).

(** What a statement does to the catalog when the server accepts it.  A
    new column goes last; a table with a primary key comes with the index
    the server names [<table>_pkey]. *)
Definition apply_statement (stmt : Statement) (cat : Catalog) : Catalog :=
  match stmt with
  | AlterTableAddColumn table c =>
      mkCatalog
        (alter (λ t, mkTable (columns t ++ [c]) (primary_key t) (foreign_keys t))
               table (tables cat))
        (pg_indexes cat)
  | CreateIndex name table column =>
      mkCatalog (tables cat) (pg_indexes cat ++ [mkIndex name table column])
  | CreateTable name t =>
      mkCatalog
        (<[name := t]> (tables cat))
        (pg_indexes cat ++
           match primary_key t with
           | [] => []
           | column :: _ => [mkIndex (String.append name "_pkey") name column]
           end)
  end.

(** [LIKE]: [%] stands for any run of characters, [_] for any one
    character, every other character for itself.  The pattern of the
    script has no escape character. *)
Fixpoint like (pattern : string) : string → bool :=
  match pattern with
  | EmptyString => λ s, match s with EmptyString => true | String _ _ => false end
  | String c pattern' =>
      if Ascii.eqb c "%"%char then
        fix any (s : string) : bool :=
          like pattern' s
          || match s with EmptyString => false | String _ s' => any s' end
      else if Ascii.eqb c "_"%char then
        λ s, match s with EmptyString => false | String _ s' => like pattern' s' end
      else
        λ s, match s with
             | EmptyString => false
             | String d s' => Ascii.eqb c d && like pattern' s'
             end
  end.

(** ** The script

    A run has the catalog and what was printed so far; it ends with a
    value or with the text of an exception. *)
Definition Script (A : Type) : Type :=
  Catalog → list string → (string + A) * Catalog * list string.

Definition ret {A} (x : A) : Script A := λ cat out, (inr x, cat, out).

Definition raise {A} (e : string) : Script A := λ cat out, (inl e, cat, out).

Definition bind {A B} (c : Script A) (k : A → Script B) : Script B :=
  λ cat out,
    match c cat out with
    | (inl e, cat', out') => (inl e, cat', out')
    | (inr x, cat', out') => k x cat' out'
    end.

Definition print (line : string) : Script unit :=
  λ cat out, (inr (), cat, out ++ [line]).

(** [await conn.execute(text(...))] for a [SELECT]. *)
Definition query {A} (select : Catalog → A) : Script A :=
  λ cat out, (inr (select cat), cat, out).

(** [async with engine.begin() as conn]: the body runs in a transaction,
    committed when it ends and rolled back when it raises.  What was
    printed stays printed. *)
Definition begin {A} (body : Script A) : Script A :=
  λ cat out,
    match body cat out with
    | (inl e, _, out') => (inl e, cat, out')
    | (inr x, cat', out') => (inr x, cat', out')
    end.

(** [try: ... except Exception as e: ...] *)
Definition try_except {A} (body : Script A) (handler : string → Script A) : Script A :=
  λ cat out,
    match body cat out with
    | (inl e, cat', out') => handler e cat' out'
    | (inr x, cat', out') => (inr x, cat', out')
    end.

Notation "'let*' x ':=' c 'in' k" := (bind c (λ x, k))
  (at level 10, x name, c at level 100, k at level 200).
Notation "'do*' c 'then' k" := (bind c (λ _, k))
  (at level 10, c at level 100, k at level 200).

(** The three queries of the script. *)
Definition select_table (cat : Catalog) : option Table :=
  tables cat !! "training_requests".

Definition select_column_names (cat : Catalog) : list string :=
  match tables cat !! "training_requests" with
  | Some t => column_name <$> columns t
  | None => []
  end.

Definition select_indexnames (cat : Catalog) : list string :=
  indexname <$>
    filter (λ i, tablename i = "training_requests"
                 ∧ like "idx_training_requests_%" (indexname i) = true)
           (pg_indexes cat).

(** The [CREATE TABLE training_requests] statement. *)
Definition training_requests : Table :=
  mkTable
    [mkColumn "id" "SERIAL PRIMARY KEY";
     mkColumn "training_id" "INTEGER NOT NULL";
     mkColumn "employee_empid" "VARCHAR NOT NULL";
     mkColumn "manager_empid" "VARCHAR NOT NULL";
     mkColumn "request_date" "TIMESTAMP DEFAULT CURRENT_TIMESTAMP";
     mkColumn "status" "VARCHAR DEFAULT 'pending'";
     mkColumn "manager_notes" "TEXT";
     mkColumn "response_date" "TIMESTAMP"]
    ["id"]
    [mkForeignKey "training_id" "training_details" "id";
     mkForeignKey "employee_empid" "users" "username";
     mkForeignKey "manager_empid" "users" "username"].

Definition idx_employee : Statement :=
  CreateIndex "idx_training_requests_employee" "training_requests" "employee_empid".
Definition idx_manager : Statement :=
  CreateIndex "idx_training_requests_manager" "training_requests" "manager_empid".
Definition idx_status : Statement :=
  CreateIndex "idx_training_requests_status" "training_requests" "status".

Section server.

(** When the server refuses a statement, and with what message, is its
    own business (a name that is taken, a column or a referenced table
    that is missing, a lock): the script is modelled for every server. *)
Variable refuses : Statement → Catalog → option string.

(** [await conn.execute(text(...))] for a statement that changes the
    catalog. *)
Definition execute (stmt : Statement) : Script unit :=
  λ cat out,
    match refuses stmt cat with
    | Some e => (inl e, cat, out)
    | None => (inr (), apply_statement stmt cat, out)
    end.

Definition create_training_requests_table : Script unit :=
  try_except
    (begin
       ((* Check if table already exists *)
        let* table_exists := query select_table in
        match table_exists with
        | Some _ =>
            do* print "✅ training_requests table exists, checking for missing columns..." then
            let* column_names := query select_column_names in
            do* (if decide ("manager_notes" ∉ column_names) then
                   do* print "🔧 Adding missing manager_notes column..." then
                   do* execute (AlterTableAddColumn "training_requests"
                                  (mkColumn "manager_notes" "TEXT")) then
                   print "✅ Added manager_notes column!"
                 else ret ()) then
            do* (if decide ("response_date" ∉ column_names) then
                   do* print "🔧 Adding missing response_date column..." then
                   do* execute (AlterTableAddColumn "training_requests"
                                  (mkColumn "response_date" "TIMESTAMP")) then
                   print "✅ Added response_date column!"
                 else ret ()) then
            (* Check if indexes exist and create them if they don't *)
            let* existing_indexes := query select_indexnames in
            do* (if decide ("idx_training_requests_employee" ∉ existing_indexes) then
                   do* execute idx_employee then
                   print "✅ Created employee index!"
                 else ret ()) then
            do* (if decide ("idx_training_requests_manager" ∉ existing_indexes) then
                   do* execute idx_manager then
                   print "✅ Created manager index!"
                 else ret ()) then
            do* (if decide ("idx_training_requests_status" ∉ existing_indexes) then
                   do* execute idx_status then
                   print "✅ Created status index!"
                 else ret ()) then
            print "✅ training_requests table is now up to date!"
        | None =>
            do* print "🔧 Creating training_requests table..." then
            do* execute (CreateTable "training_requests" training_requests) then
            (* Create indexes for better performance *)
            do* execute idx_employee then
            do* execute idx_manager then
            do* execute idx_status then
            print "✅ Successfully created training_requests table with indexes!"
        end))
    (λ e,
       do* print (String.append "❌ Error updating training_requests table: " e) then
       raise e).

Definition main : Script unit :=
  do* print "🚀 Starting database migration for training_requests table..." then
  do* create_training_requests_table then
  print "🎉 Migration completed successfully!".

End server.

(** ** The statements of a run

    What the script sends depends on the catalog it starts from: the
    [CREATE TABLE] and the three [CREATE INDEX] when the table is missing,
    else an [ALTER TABLE] for each of the two columns that is missing and
    a [CREATE INDEX] for each of the three names that is missing. *)
Definition add_manager_notes : Statement :=
  AlterTableAddColumn "training_requests" (mkColumn "manager_notes" "TEXT").
Definition add_response_date : Statement :=
  AlterTableAddColumn "training_requests" (mkColumn "response_date" "TIMESTAMP").

Definition unless_in (name : string) (names : list string) (stmt : Statement)
  : list Statement :=
  if decide (name ∉ names) then [stmt] else [].

Definition plan (cat : Catalog) : list Statement :=
  match select_table cat with
  | Some _ =>
      unless_in "manager_notes" (select_column_names cat) add_manager_notes
      ++ unless_in "response_date" (select_column_names cat) add_response_date
      ++ unless_in "idx_training_requests_employee" (select_indexnames cat) idx_employee
      ++ unless_in "idx_training_requests_manager" (select_indexnames cat) idx_manager
      ++ unless_in "idx_training_requests_status" (select_indexnames cat) idx_status
  | None =>
      [CreateTable "training_requests" training_requests;
       idx_employee; idx_manager; idx_status]
  end.

(** The names of [names] that [old] lacks. *)
Definition missing (names old : list string) : list string :=
  filter (λ name, name ∉ old) names.

(** Statements sent one after the other, up to the first one refused. *)
Fixpoint execute_all (refuses : Statement → Catalog → option string)
    (stmts : list Statement) (cat : Catalog) : string + Catalog :=
  match stmts with
  | [] => inr cat
  | stmt :: stmts' =>
      match refuses stmt cat with
      | Some e => inl e
      | None => execute_all refuses stmts' (apply_statement stmt cat)
      end
  end.

(** The table is there with the two late columns and the three index
    names: what the script calls up to date. *)
Definition up_to_date (cat : Catalog) : Prop :=
  is_Some (select_table cat)
  ∧ "manager_notes" ∈ select_column_names cat
  ∧ "response_date" ∈ select_column_names cat
  ∧ "idx_training_requests_employee" ∈ select_indexnames cat
  ∧ "idx_training_requests_manager" ∈ select_indexnames cat
  ∧ "idx_training_requests_status" ∈ select_indexnames cat.

(** Nothing that was in the catalog is dropped or rewritten: every table
    is still there with its key and references, its columns followed by
    the new ones, every other table as it was, and the old indexes come
    first among the indexes. *)
Definition extends (cat cat' : Catalog) : Prop :=
  (∀ name t, tables cat !! name = Some t →
     ∃ t', tables cat' !! name = Some t'
           ∧ columns t `prefix_of` columns t'
           ∧ primary_key t' = primary_key t
           ∧ foreign_keys t' = foreign_keys t
           ∧ (name ≠ "training_requests" → t' = t))
  ∧ (∀ name, name ≠ "training_requests" →
       tables cat' !! name = tables cat !! name)
  ∧ pg_indexes cat `prefix_of` pg_indexes cat'.

(** The statements that add a column to [training_requests] or create an
    index. *)
Definition only_adds (stmt : Statement) : Prop :=
  match stmt with
  | AlterTableAddColumn table _ => table = "training_requests"
  | CreateIndex _ _ _ => True
  | CreateTable _ _ => False
  end.

(** The lines a run prints on a database that is up to date. *)
Definition up_to_date_lines : list string :=
  ["✅ training_requests table exists, checking for missing columns...";
   "✅ training_requests table is now up to date!"].

(** A server that accepts everything, and an empty database. *)
Definition accepts_all : Statement → Catalog → option string := λ _ _, None.

Definition empty_catalog : Catalog := mkCatalog ∅ [].

(** A [training_requests] table from before the two late columns, with
    one of the three indexes, next to a [users] table. *)
Definition old_catalog : Catalog :=
  mkCatalog
    {[ "training_requests" :=
         mkTable [mkColumn "id" "SERIAL PRIMARY KEY";
                  mkColumn "training_id" "INTEGER NOT NULL";
                  mkColumn "employee_empid" "VARCHAR NOT NULL";
                  mkColumn "manager_empid" "VARCHAR NOT NULL";
                  mkColumn "request_date" "TIMESTAMP DEFAULT CURRENT_TIMESTAMP";
                  mkColumn "status" "VARCHAR DEFAULT 'pending'"]
                 ["id"] [];
       "users" := mkTable [mkColumn "username" "VARCHAR"] ["username"] [] ]}
    [mkIndex "training_requests_pkey" "training_requests" "id";
     mkIndex "idx_training_requests_manager" "training_requests" "manager_empid"].

(** The catalog a run leaves on the server that accepts everything. *)
Definition migrated (cat : Catalog) : Catalog :=
  (create_training_requests_table accepts_all cat []).1.2.

(** A server that refuses everything. *)
Definition refuses_all : Statement → Catalog → option string :=
  λ _ _, Some "cannot execute in a read-only transaction".

(** A server on which the third index cannot be created. *)
Definition refuses_status_index : Statement → Catalog → option string :=
  λ stmt _,
    match stmt with
    | CreateIndex name _ _ =>
        if decide (name = "idx_training_requests_status")
        then Some "permission denied" else None
    | _ => None
    end.

End Migration.

(** ** Invariants of the stores *)

(** At most one request is stored for a (training, employee) pair.  The
    table has no such constraint; [create_training_request] checks it. *)
Definition unique_pairs (db : DB) : Prop :=
  ∀ training_id employee_empid,
    (length (requests_for db training_id employee_empid) ≤ 1)%nat.

(** Every stored assignment carries the three columns of a stored request
    whose status is ['approved']. *)
Definition assignments_backed (db : DB) : Prop :=
  ∀ a, a ∈ training_assignments db →
    ∃ r, r ∈ training_requests db
         ∧ TrainingRequest.status r = "approved"
         ∧ copied_from a r.

(** The columns of a request that no route writes after the insert. *)
Definition identity_columns (r : TrainingRequest.t) : Z * Z * string * string * Z :=
  (TrainingRequest.id r, TrainingRequest.training_id r,
   TrainingRequest.employee_empid r, TrainingRequest.manager_empid r,
   TrainingRequest.request_date r).

(** [current_user] carries no usable name: the key is missing or empty. *)
Definition anonymous (current_user : gmap string string) : Prop :=
  current_user !! "username" = None ∨ current_user !! "username" = Some "".

Definition unauthorized : Exception :=
  HTTPException HTTP_401_UNAUTHORIZED "Could not validate credentials".

(** The sequence is ahead of every stored [id], as it is when every [id]
    was drawn from it. *)
Definition sequence_ahead (db : DB) : Prop :=
  ∀ r, r ∈ training_requests db → TrainingRequest.id r < training_requests_id_seq db.

(** The database after an insert that was refused: only the sequence has
    moved. *)
Definition skipped (db : DB) : DB :=
  mkDB (training_details db) (users db) (manager_employee db)
       (training_requests db) (training_assignments db)
       (training_requests_id_seq db + 1).

Definition already_responded : Exception :=
  HTTPException HTTP_400_BAD_REQUEST "This request has already been responded to".

(** * Proofs *)

Lemma get_current_username_ok current_user u db :
  authenticated current_user u →
  get_current_username current_user db = (inr u, db).
Proof.
  intros [Hget Hne]. unfold get_current_username. rewrite Hget.
  destruct (decide (u = "")); [contradiction | reflexivity].
Qed.

Lemma get_current_username_inv current_user db r db' :
  get_current_username current_user db = (r, db') →
  db' = db ∧
  (r = inl (HTTPException HTTP_401_UNAUTHORIZED "Could not validate credentials")
   ∨ ∃ u, r = inr u ∧ authenticated current_user u).
Proof.
  unfold get_current_username, authenticated.
  destruct (current_user !! "username") as [u|] eqn:Hget.
  - destruct (decide (u = "")); intros [= <- <-]; split; eauto.
  - intros [= <- <-]; split; eauto.
Qed.

Lemma filter_fresh_id (l : list TrainingRequest.t) k :
  k ∉ TrainingRequest.id <$> l →
  filter (λ r, TrainingRequest.id r = k) l = [].
Proof.
  induction l as [|r l IH]; [reflexivity|].
  rewrite fmap_cons, not_elem_of_cons. intros [Hne Hl].
  rewrite filter_cons_False by congruence. auto.
Qed.

Lemma filter_primary_key (l : list TrainingRequest.t) r :
  NoDup (TrainingRequest.id <$> l) → r ∈ l →
  filter (λ r', TrainingRequest.id r' = TrainingRequest.id r) l = [r].
Proof.
  induction l as [|r' l IH]; [by intros _ ?%elem_of_nil|].
  rewrite fmap_cons, NoDup_cons. intros [Hfresh Hnd] [->|Hin]%elem_of_cons.
  - rewrite filter_cons_True by reflexivity.
    by rewrite filter_fresh_id.
  - rewrite filter_cons_False; [auto|].
    intros Heq. apply Hfresh. rewrite Heq. by apply list_elem_of_fmap_2.
Qed.

Lemma authenticated_or_not current_user :
  (∃ M, authenticated current_user M) ∨ (∀ M, ¬ authenticated current_user M).
Proof.
  unfold authenticated.
  destruct (current_user !! "username") as [u|]; [|right; by intros M [? _]].
  destruct (decide (u = "")) as [->|Hne]; [right|left; eauto].
  intros M [[= <-] ?]. done.
Qed.

Lemma authenticated_inj current_user u u' :
  authenticated current_user u → authenticated current_user u' → u = u'.
Proof. intros [H1 _] [H2 _]. congruence. Qed.

Section create.

Variable request_data : TrainingRequestCreate.
Variable current_user : gmap string string.
Variable now : Z.

#[local] Abbreviation T := (create_training_id request_data).

(** Runs the route up to its first query, for a caller known to be
    authenticated, and exposes the three [select]s. *)
Ltac enter_create Hauth :=
  unfold create_training_request, bind;
  rewrite (get_current_username_ok _ _ _ Hauth);
  unfold execute, catalog_rows, directory_rows, requests_for in *.

Lemma create_unauthenticated db :
  (∀ E, ¬ authenticated current_user E) →
  create_training_request request_data current_user now db
  = (inl (HTTPException HTTP_401_UNAUTHORIZED "Could not validate credentials"), db).
Proof.
  intros Hno.
  destruct (get_current_username current_user db) as [r db1] eqn:Hu.
  destruct (get_current_username_inv _ _ _ _ Hu) as [-> [->|(E & -> & Hauth)]].
  - unfold create_training_request, bind. by rewrite Hu.
  - by destruct (Hno E).
Qed.

Lemma create_training_missing db E :
  authenticated current_user E →
  catalog_rows db T = [] →
  create_training_request request_data current_user now db
  = (inl (HTTPException HTTP_404_NOT_FOUND "Training not found"), db).
Proof. intros Hauth Hcat. enter_create Hauth. by rewrite Hcat. Qed.

Lemma create_manager_missing db E t :
  authenticated current_user E →
  catalog_rows db T = [t] →
  directory_rows db E = [] →
  create_training_request request_data current_user now db
  = (inl (HTTPException HTTP_404_NOT_FOUND "No manager found for this employee"), db).
Proof.
  intros Hauth Hcat Hdir. enter_create Hauth.
  rewrite Hcat. simpl. by rewrite Hdir.
Qed.

Lemma create_duplicate db E t me r :
  authenticated current_user E →
  catalog_rows db T = [t] →
  directory_rows db E = [me] →
  requests_for db T E = [r] →
  create_training_request request_data current_user now db
  = (inl (HTTPException HTTP_400_BAD_REQUEST
            "You have already requested this training"), db).
Proof.
  intros Hauth Hcat Hdir Hreq. enter_create Hauth.
  rewrite Hcat. simpl. rewrite Hdir. simpl. by rewrite Hreq.
Qed.

Lemma create_success db E t me :
  authenticated current_user E →
  catalog_rows db T = [t] →
  directory_rows db E = [me] →
  requests_for db T E = [] →
  training_requests_id_seq db ∉ TrainingRequest.id <$> training_requests db →
  create_training_request request_data current_user now db
  = (inr (selectinload (inserted db (new_request db T E me now))
                       (new_request db T E me now)),
     inserted db (new_request db T E me now)).
Proof.
  intros Hauth Hcat Hdir Hreq Hfresh. enter_create Hauth.
  rewrite Hcat. simpl. rewrite Hdir. simpl. rewrite Hreq. simpl.
  unfold add_training_request. rewrite decide_False by done. simpl.
  rewrite filter_app, filter_fresh_id by done.
  rewrite filter_cons_True by done. reflexivity.
Qed.

(** Every way [create_training_request] can end for an authenticated
    caller, check by check. *)
Lemma create_training_request_checks db E :
  authenticated current_user E →
  let out := create_training_request request_data current_user now db in
  (catalog_rows db T = [] ∧
   out = (inl (HTTPException HTTP_404_NOT_FOUND "Training not found"), db))
  ∨ ((1 < length (catalog_rows db T))%nat ∧ out = (inl MultipleResultsFound, db))
  ∨ ∃ t, catalog_rows db T = [t] ∧
    ( (directory_rows db E = [] ∧
       out = (inl (HTTPException HTTP_404_NOT_FOUND
                     "No manager found for this employee"), db))
    ∨ ((1 < length (directory_rows db E))%nat ∧ out = (inl MultipleResultsFound, db))
    ∨ ∃ me, directory_rows db E = [me] ∧
      ( ((∃ r, requests_for db T E = [r]) ∧
         out = (inl (HTTPException HTTP_400_BAD_REQUEST
                       "You have already requested this training"), db))
      ∨ ((1 < length (requests_for db T E))%nat ∧ out = (inl MultipleResultsFound, db))
      ∨ (requests_for db T E = [] ∧
         training_requests_id_seq db ∈ (TrainingRequest.id <$> training_requests db) ∧
         out.1 = inl IntegrityError ∧
         training_requests out.2 = training_requests db)
      ∨ (requests_for db T E = [] ∧
         (training_requests_id_seq db ∉ TrainingRequest.id <$> training_requests db) ∧
         out = (inr (selectinload (inserted db (new_request db T E me now))
                                  (new_request db T E me now)),
                inserted db (new_request db T E me now))))).
Proof.
  intros Hauth out.
  destruct (catalog_rows db T) as [|t [|t' cat]] eqn:Hcat.
  - left. split; [done|]. by apply create_training_missing with E.
  - right; right. exists t. split; [done|].
    destruct (directory_rows db E) as [|me [|me' dir]] eqn:Hdir.
    + left. split; [done|]. by apply create_manager_missing with E t.
    + right; right. exists me. split; [done|].
      destruct (requests_for db T E) as [|r [|r' rs]] eqn:Hreq.
      * right; right.
        destruct (decide (training_requests_id_seq db
                          ∈ TrainingRequest.id <$> training_requests db)) as [Hin|Hfresh].
        -- left. split_and!; [done..| |]; subst out; enter_create Hauth;
             rewrite Hcat; simpl; rewrite Hdir; simpl; rewrite Hreq; simpl;
             unfold add_training_request; by rewrite decide_True.
        -- right. split_and!; [done..|]. by apply create_success with t.
      * left. split; [eauto|]. by apply create_duplicate with E t me r.
      * right; left. split; [simpl; lia|]. subst out. enter_create Hauth.
        rewrite Hcat. simpl. rewrite Hdir. simpl. by rewrite Hreq.
    + right; left. split; [simpl; lia|]. subst out. enter_create Hauth.
      rewrite Hcat. simpl. by rewrite Hdir.
  - right; left. split; [simpl; lia|]. subst out. enter_create Hauth.
    by rewrite Hcat.
Qed.

(** A call that returns has passed every check. *)
Lemma create_training_request_inr db resp db' :
  create_training_request request_data current_user now db = (inr resp, db') →
  ∃ E t me,
    authenticated current_user E
    ∧ catalog_rows db T = [t]
    ∧ directory_rows db E = [me]
    ∧ requests_for db T E = []
    ∧ (training_requests_id_seq db ∉ TrainingRequest.id <$> training_requests db)
    ∧ resp = selectinload db' (new_request db T E me now)
    ∧ db' = inserted db (new_request db T E me now).
Proof.
  intros Hout.
  destruct (authenticated_or_not current_user) as [[E Hauth]|Hno].
  2:{ by rewrite create_unauthenticated in Hout. }
  pose proof (create_training_request_checks db E Hauth) as Hc.
  cbv zeta in Hc. rewrite Hout in Hc.
  destruct Hc as [[_ [=]]|[[_ [=]]|(t & Hcat & Hc)]].
  destruct Hc as [[_ [=]]|[[_ [=]]|(me & Hdir & Hc)]].
  destruct Hc as [[_ [=]]|[[_ [=]]|[(_ & _ & [=] & _)|(Hreq & Hfresh & [= -> ->])]]].
  by exists E, t, me.
Qed.

(** A call that raises has inserted no row. *)
Lemma create_training_request_inl db e db' :
  create_training_request request_data current_user now db = (inl e, db') →
  training_requests db' = training_requests db.
Proof.
  intros Hout.
  destruct (authenticated_or_not current_user) as [[E Hauth]|Hno].
  2:{ rewrite create_unauthenticated in Hout by done. by injection Hout as _ <-. }
  pose proof (create_training_request_checks db E Hauth) as Hc.
  cbv zeta in Hc. rewrite Hout in Hc. cbn [fst snd] in Hc.
  destruct Hc as [[_ [= _ <-]]|[[_ [= _ <-]]|(t & _ & Hc)]]; [done..|].
  destruct Hc as [[_ [= _ <-]]|[[_ [= _ <-]]|(me & _ & Hc)]]; [done..|].
  by destruct Hc as [[_ [= _ <-]]|[[_ [= _ <-]]|[(_ & _ & _ & ?)|(_ & _ & [=])]]].
Qed.

End create.

Lemma authenticated_as_user u : u ≠ "" → authenticated (as_user u) u.
Proof. intros Hu. split; [apply lookup_singleton_eq | done]. Qed.

(** ** Create request *)

(** C7. A successful [create_training_request] appends one request; its
    status is ['pending'] and its [manager_empid] is the one of the single
    directory row found for the caller in the database the call ran
    against. *)
Theorem create_sets_pending_and_manager
    request_data current_user now db resp db' :
  create_training_request request_data current_user now db = (inr resp, db') →
  ∃ E me r,
    authenticated current_user E ∧
    directory_rows db E = [me] ∧
    training_requests db' = training_requests db ++ [r] ∧
    loaded_request resp = r ∧
    TrainingRequest.status r = "pending" ∧
    TrainingRequest.manager_empid r = ManagerEmployee.manager_empid me ∧
    TrainingRequest.employee_empid r = E ∧
    TrainingRequest.training_id r = create_training_id request_data.
Proof.
  intros Hout.
  apply create_training_request_inr in Hout
    as (E & t & me & Hauth & _ & Hdir & _ & _ & -> & ->).
  exists E, me, (new_request db (create_training_id request_data) E me now).
  by split_and!.
Qed.

Lemma create_sets_pending_and_manager_witness :
  ∃ E me r,
    authenticated (as_user "e1") E ∧
    directory_rows db0 E = [me] ∧
    training_requests db1 = training_requests db0 ++ [r] ∧
    loaded_request
      (selectinload db1 (TrainingRequest.mk 1 5 "e1" "m1" 100 "pending" None None)) = r ∧
    TrainingRequest.status r = "pending" ∧
    TrainingRequest.manager_empid r = ManagerEmployee.manager_empid me ∧
    TrainingRequest.employee_empid r = E ∧
    TrainingRequest.training_id r = 5.
Proof.
  apply (create_sets_pending_and_manager
           {| create_training_id := 5 |} (as_user "e1") 100 db0).
  vm_compute. reflexivity.
Defined.

(** C8. A [create_training_request] for a [training_id] with no
    [TrainingDetail] row raises 404 "Training not found" and leaves the
    database as it was.  The database is arbitrary: the answer is the same
    when the caller has no directory row and when a request for the pair
    is already stored.  The other way round, the 404 of the manager check
    and the 400 of the duplicate check are only raised for a training that
    has its catalog row.  So the training check comes before those two. *)
Theorem create_unknown_training request_data current_user now db E :
  authenticated current_user E →
  let out := create_training_request request_data current_user now db in
  (catalog_rows db (create_training_id request_data) = [] →
   out = (inl (HTTPException HTTP_404_NOT_FOUND "Training not found"), db))
  ∧ (out.1 = inl (HTTPException HTTP_404_NOT_FOUND "No manager found for this employee")
     ∨ out.1 = inl (HTTPException HTTP_400_BAD_REQUEST
                      "You have already requested this training") →
     ∃ t, catalog_rows db (create_training_id request_data) = [t]).
Proof.
  intros Hauth out. split.
  - by apply create_training_missing with E.
  - intros Hout.
    pose proof (create_training_request_checks request_data current_user now db E Hauth)
      as Hc.
    cbv zeta in Hc. fold out in Hc.
    destruct Hc as [[_ Heq]|[[_ Heq]|(t & Hcat & _)]]; [..|by eexists];
      rewrite Heq in Hout; by destruct Hout as [[=]|[=]].
Qed.

Lemma create_unknown_training_witness :
  requests_for db_all_checks_fail 5 "e1" ≠ []
  ∧ directory_rows db_all_checks_fail "e1" = []
  ∧ create_training_request {| create_training_id := 5 |} (as_user "e1") 300
      db_all_checks_fail
    = (inl (HTTPException HTTP_404_NOT_FOUND "Training not found"), db_all_checks_fail)
  ∧ ∃ t, catalog_rows db1 5 = [t].
Proof.
  assert (authenticated (as_user "e1") "e1") as Hauth
    by (by apply authenticated_as_user).
  split; [by vm_compute|]. split; [reflexivity|]. split.
  - apply (create_unknown_training {| create_training_id := 5 |} (as_user "e1") 300
             db_all_checks_fail "e1" Hauth).
    reflexivity.
  - apply (create_unknown_training {| create_training_id := 5 |} (as_user "e1") 300
             db1 "e1" Hauth).
    right. reflexivity.
Defined.

(** C3, as amended.  With a request for (T, E) already stored, a
    [create_training_request] by E for T raises and leaves the database as
    it was.  The exception is the 400 "You have already requested this
    training" when the two earlier checks pass, that is when T has its
    catalog row and E has one directory row, and one request is stored for
    the pair.  After a call that succeeded, exactly one request is stored
    for the pair and a second call raises that 400. *)
Theorem create_twice_conflict request_data current_user now db E :
  authenticated current_user E →
  let T := create_training_id request_data in
  (requests_for db T E ≠ [] →
   ∃ e, create_training_request request_data current_user now db = (inl e, db))
  ∧ (∀ t me r,
       catalog_rows db T = [t] → directory_rows db E = [me] →
       requests_for db T E = [r] →
       create_training_request request_data current_user now db
       = (inl (HTTPException HTTP_400_BAD_REQUEST
                 "You have already requested this training"), db))
  ∧ (∀ resp db' now',
       create_training_request request_data current_user now db = (inr resp, db') →
       length (requests_for db' T E) = 1%nat
       ∧ create_training_request request_data current_user now' db'
         = (inl (HTTPException HTTP_400_BAD_REQUEST
                   "You have already requested this training"), db')).
Proof.
  intros Hauth T. subst T. split_and!.
  - intros Hex.
    destruct (create_training_request request_data current_user now db)
      as [[e|resp] db'] eqn:Hout.
    + exists e. f_equal.
      pose proof (create_training_request_checks request_data current_user now db E
                    Hauth) as Hc.
      cbv zeta in Hc. rewrite Hout in Hc.
      destruct Hc as [[_ [= _ ->]]|[[_ [= _ ->]]|(t & _ & Hc)]]; [done..|].
      destruct Hc as [[_ [= _ ->]]|[[_ [= _ ->]]|(me & _ & Hc)]]; [done..|].
      by destruct Hc as [[_ [= _ ->]]|[[_ [= _ ->]]|[(? & _)|(? & _)]]].
    + apply create_training_request_inr in Hout
        as (E' & t & me & Hauth' & _ & _ & Hreq & _).
      rewrite <- (authenticated_inj _ _ _ Hauth Hauth') in Hreq. done.
  - intros t me r. by apply create_duplicate.
  - intros resp db' now' Hout.
    apply create_training_request_inr in Hout
      as (E' & t & me & Hauth' & Hcat & Hdir & Hreq & _ & _ & ->).
    rewrite <- (authenticated_inj _ _ _ Hauth Hauth') in *.
    set (T := create_training_id request_data) in *.
    assert (requests_for (inserted db (new_request db T E me now)) T E
            = [new_request db T E me now]) as Hreq'.
    { unfold requests_for in *. simpl. rewrite filter_app, Hreq.
      by rewrite filter_cons_True. }
    split; [by rewrite Hreq'|].
    by apply create_duplicate with E t me (new_request db T E me now).
Qed.

Lemma create_twice_conflict_witness :
  (∃ e, create_training_request {| create_training_id := 5 |} (as_user "e1") 300 db1
        = (inl e, db1))
  ∧ create_training_request {| create_training_id := 5 |} (as_user "e1") 300 db1
    = (inl (HTTPException HTTP_400_BAD_REQUEST
              "You have already requested this training"), db1)
  ∧ (length (requests_for db1 5 "e1") = 1%nat
     ∧ create_training_request {| create_training_id := 5 |} (as_user "e1") 300 db1
       = (inl (HTTPException HTTP_400_BAD_REQUEST
                 "You have already requested this training"), db1)).
Proof.
  assert (authenticated (as_user "e1") "e1") as Hauth
    by (by apply authenticated_as_user).
  destruct (create_twice_conflict {| create_training_id := 5 |} _ 300 db1 "e1" Hauth)
    as (Hfails & Hconflict & _).
  destruct (create_twice_conflict {| create_training_id := 5 |} _ 100 db0 "e1" Hauth)
    as (_ & _ & Htwice).
  split_and!.
  - apply Hfails. by vm_compute.
  - eapply Hconflict; reflexivity.
  - eapply (Htwice _ db1 300). reflexivity.
  - eapply (Htwice _ db1 300). reflexivity.
Defined.

(** C3 as written fails.  In [db1_without_directory] a request of [e1] for
    training 5 is stored, and the call of [e1] for training 5 raises the 404
    of the manager check, which comes before the duplicate check. *)
Lemma create_existing_not_always_conflict :
  ¬ (∀ request_data current_user now db E,
       authenticated current_user E →
       requests_for db (create_training_id request_data) E ≠ [] →
       (create_training_request request_data current_user now db).1
       = inl (HTTPException HTTP_400_BAD_REQUEST
                "You have already requested this training")).
Proof.
  intros H.
  specialize (H {| create_training_id := 5 |} (as_user "e1") 300
                db1_without_directory "e1").
  assert (authenticated (as_user "e1") "e1") as Hauth
    by (by apply authenticated_as_user).
  specialize (H Hauth). vm_compute in H.
  assert ([TrainingRequest.mk 1 5 "e1" "m1" 100 "pending" None None] ≠ []) as Hne by done.
  specialize (H Hne). discriminate H.
Qed.

(** ** Listing *)

Section order_by.
Context {A : Type} (key : A → Z).

#[local] Instance later_first_total : Total (later_first key).
Proof. intros a b. unfold later_first. lia. Qed.

#[local] Instance later_first_trans : Transitive (later_first key).
Proof. intros a b c. unfold later_first. lia. Qed.

Lemma order_by_desc_sorted rows :
  StronglySorted (λ a b, key b ≤ key a) (order_by_desc key rows).
Proof. apply (StronglySorted_merge_sort (later_first key)). Qed.

Lemma order_by_desc_perm rows : order_by_desc key rows ≡ₚ rows.
Proof. apply merge_sort_Permutation. Qed.

End order_by.

Lemma loaded_request_selectinload db (rows : list TrainingRequest.t) :
  loaded_request <$> (selectinload db <$> rows) = rows.
Proof.
  rewrite <- list_fmap_compose. rewrite <- (list_fmap_id rows) at 2.
  by apply list_fmap_ext.
Qed.

(** C9. [get_my_training_requests] called by E returns the stored
    requests whose [employee_empid] is E, each once, latest
    [request_date] first, and changes nothing. *)
Theorem list_my_requests current_user E db :
  authenticated current_user E →
  ∃ requests,
    get_my_training_requests current_user db = (inr requests, db)
    ∧ loaded_request <$> requests
      ≡ₚ filter (λ r, TrainingRequest.employee_empid r = E) (training_requests db)
    ∧ (∀ r, r ∈ loaded_request <$> requests
            ↔ r ∈ training_requests db ∧ TrainingRequest.employee_empid r = E)
    ∧ StronglySorted
        (λ a b, TrainingRequest.request_date b ≤ TrainingRequest.request_date a)
        (loaded_request <$> requests).
Proof.
  intros Hauth. eexists. split.
  { unfold get_my_training_requests, bind.
    rewrite (get_current_username_ok _ _ _ Hauth). reflexivity. }
  rewrite loaded_request_selectinload. split_and!.
  - apply order_by_desc_perm.
  - intros r. rewrite order_by_desc_perm, list_elem_of_filter. tauto.
  - apply order_by_desc_sorted.
Qed.

Lemma list_my_requests_witness :
  ∃ requests,
    get_my_training_requests (as_user "e1") db_listing = (inr requests, db_listing)
    ∧ loaded_request <$> requests
      ≡ₚ filter (λ r, TrainingRequest.employee_empid r = "e1")
                (training_requests db_listing)
    ∧ (∀ r, r ∈ loaded_request <$> requests
            ↔ r ∈ training_requests db_listing
              ∧ TrainingRequest.employee_empid r = "e1")
    ∧ StronglySorted
        (λ a b, TrainingRequest.request_date b ≤ TrainingRequest.request_date a)
        (loaded_request <$> requests).
Proof.
  apply (list_my_requests (as_user "e1") "e1" db_listing).
  by apply authenticated_as_user.
Defined.

Example list_my_requests_example :
  match (get_my_training_requests (as_user "e1") db_listing).1 with
  | inr rows => Some ((λ row, TrainingRequest.id (loaded_request row)) <$> rows)
  | inl _ => None
  end = Some [2; 1].
Proof. reflexivity. Qed.

Section join.

Variable db : DB.

Lemma join_directory_rows r :
  filter (λ me, TrainingRequest.employee_empid r = ManagerEmployee.employee_empid me)
         (manager_employee db)
  = directory_rows db (TrainingRequest.employee_empid r).
Proof. apply list_filter_iff. intros me. split; congruence. Qed.

Lemma join_manager_employee_eq :
  join_manager_employee db = joined_with_directory db (training_requests db).
Proof.
  unfold join_manager_employee, joined_with_directory.
  apply list_bind_ext; [|done]. intros r. by rewrite join_directory_rows.
Qed.

Lemma filter_pairs (P : TrainingRequest.t → Prop) `{!∀ r, Decision (P r)}
    r (mes : list ManagerEmployee.t) :
  filter (λ joined : TrainingRequest.t * ManagerEmployee.t, P joined.1)
         (me ← mes; [(r, me)])
  = if decide (P r) then me ← mes; [(r, me)] else [].
Proof.
  induction mes as [|me mes IH].
  - by destruct (decide (P r)).
  - rewrite bind_cons, filter_app, IH.
    destruct (decide (P r)).
    + by rewrite filter_cons_True.
    + by rewrite filter_cons_False.
Qed.

(** A [where] clause on the request columns commutes with the join. *)
Lemma filter_joined (P : TrainingRequest.t → Prop) `{!∀ r, Decision (P r)}
    (requests : list TrainingRequest.t) :
  filter (λ joined : TrainingRequest.t * ManagerEmployee.t, P joined.1)
         (joined_with_directory db requests)
  = joined_with_directory db (filter P requests).
Proof.
  unfold joined_with_directory.
  induction requests as [|r requests IH]; [done|].
  rewrite bind_cons, filter_app, IH, filter_pairs.
  destruct (decide (P r)).
  - by rewrite filter_cons_True, bind_cons.
  - by rewrite filter_cons_False.
Qed.

Lemma joined_one_row (requests : list TrainingRequest.t) :
  (∀ r, r ∈ requests →
        length (directory_rows db (TrainingRequest.employee_empid r)) = 1%nat) →
  fst <$> joined_with_directory db requests = requests.
Proof.
  unfold joined_with_directory.
  induction requests as [|r requests IH]; intros Hone; [done|].
  rewrite bind_cons, fmap_app, IH.
  - specialize (Hone r ltac:(left)).
    by destruct (directory_rows db (TrainingRequest.employee_empid r))
      as [|me [|me' mes]].
  - intros r' Hr'. apply Hone. by right.
Qed.

Lemma elem_of_joined (requests : list TrainingRequest.t) r me :
  (r, me) ∈ joined_with_directory db requests
  ↔ r ∈ requests ∧ me ∈ manager_employee db
    ∧ ManagerEmployee.employee_empid me = TrainingRequest.employee_empid r.
Proof.
  unfold joined_with_directory. rewrite list_elem_of_bind. split.
  - intros (r' & Hin & Hr'). apply list_elem_of_bind in Hin as (me' & Hin & Hme').
    apply list_elem_of_singleton in Hin as [= -> ->].
    apply list_elem_of_filter in Hme' as [? ?]. done.
  - intros (Hr & Hme & Heq). exists r. split; [|done].
    apply list_elem_of_bind. exists me. split; [by left|].
    by apply list_elem_of_filter.
Qed.

(** What [request_dict] builds when the employee has a [users] row. *)
Lemma request_dict_inr row resp :
  request_dict db row = inr resp →
  request_of_response resp = row.1
  ∧ Employee.name (TrainingRequestResponse.employee resp) = row.2
  ∧ Employee.username (TrainingRequestResponse.employee resp)
    = TrainingRequest.employee_empid row.1.
Proof.
  unfold request_dict. simpl.
  destruct (head (filter _ (users db))) as [u|] eqn:Hu; [|done].
  intros [= <-]. simpl. split_and!; [by destruct row as [[] ?] | done |].
  assert (u ∈ filter (λ u, User.username u = TrainingRequest.employee_empid row.1)
                     (users db)) as Hin.
  { apply head_Some in Hu as [l' Hl']. rewrite Hl'. by left. }
  by apply list_elem_of_filter in Hin as [? _].
Qed.

Lemma request_dict_total row :
  (∃ u, u ∈ users db ∧ User.username u = TrainingRequest.employee_empid row.1) →
  ∃ resp, request_dict db row = inr resp.
Proof.
  intros (u & Hu & Hname).
  unfold request_dict. simpl.
  destruct (head (filter _ (users db))) as [u'|] eqn:Hhead; [eauto|].
  apply head_None in Hhead.
  assert (u ∈ filter (λ u, User.username u = TrainingRequest.employee_empid row.1)
                     (users db)) as Hin'
    by (by apply list_elem_of_filter).
  rewrite Hhead in Hin'. by apply elem_of_nil in Hin'.
Qed.

Lemma request_dict_cases row :
  request_dict db row = inl AttributeError ∨ ∃ resp, request_dict db row = inr resp.
Proof.
  unfold request_dict.
  destruct (loaded_employee (selectinload db row.1)); eauto.
Qed.

End join.

Lemma for_each_total {A B} (body : A → Exception + B) rows :
  (∀ row, row ∈ rows → ∃ x, body row = inr x) →
  ∃ xs, for_each body rows = inr xs ∧ Forall2 (λ row x, body row = inr x) rows xs.
Proof.
  induction rows as [|row rows IH]; intros Hall.
  - exists []. by split.
  - destruct (Hall row ltac:(left)) as [x Hx].
    destruct IH as (xs & Hxs & Hall2). { intros ? ?. apply Hall. by right. }
    exists (x :: xs). simpl. rewrite Hx, Hxs. split; [done|]. by constructor.
Qed.

Lemma Forall2_fmap_eq {A B} (f : B → A) (rows : list A) (xs : list B) :
  Forall2 (λ row x, f x = row) rows xs → f <$> xs = rows.
Proof. induction 1; [done|]. rewrite fmap_cons. congruence. Qed.

Lemma select_columns_joined db (requests : list TrainingRequest.t) :
  select_columns <$> joined_with_directory db requests
  = (r ← requests;
     me ← directory_rows db (TrainingRequest.employee_empid r);
     [(r, ManagerEmployee.employee_name me)]).
Proof.
  unfold joined_with_directory.
  induction requests as [|r requests IH]; [done|].
  rewrite !bind_cons, fmap_app, IH. f_equal.
  induction (directory_rows db (TrainingRequest.employee_empid r)) as [|me mes IHmes];
    [done|].
  rewrite !bind_cons, fmap_app, IHmes. done.
Qed.

Lemma StronglySorted_fmap_inv {A B} (f : A → B) (R : relation B) (l : list A) :
  StronglySorted R (f <$> l) → StronglySorted (λ a b, R (f a) (f b)) l.
Proof.
  induction l as [|a l IH]; [constructor|].
  rewrite fmap_cons. intros [Hl Ha]%StronglySorted_inv.
  constructor; [auto|]. by rewrite Forall_fmap in Ha.
Qed.

Lemma pending_rows_joined M db :
  pending_rows M db
  ≡ₚ select_columns <$>
       joined_with_directory db
         (filter (λ r, TrainingRequest.manager_empid r = M
                       ∧ TrainingRequest.status r = "pending")
                 (training_requests db)).
Proof.
  unfold pending_rows. rewrite order_by_desc_perm, join_manager_employee_eq.
  by rewrite <- (filter_joined db
    (λ r, TrainingRequest.manager_empid r = M ∧ TrainingRequest.status r = "pending")).
Qed.

(** What [get_pending_requests] called by M returns, in a database that
    satisfies the foreign key from [employee_empid] to [users]: one result
    for each pair of a stored request with [manager_empid] M and status
    ['pending'] and a directory row of that request's employee, and nothing
    else; the results carry the request's columns and the [employee_name]
    of the directory row, latest [request_date] first.  When each such
    employee has exactly one directory row, the results are exactly those
    requests, each once. *)
Lemma list_pending_requests current_user M db :
  authenticated current_user M →
  employee_foreign_key db →
  let pending :=
    filter (λ r, TrainingRequest.manager_empid r = M
                 ∧ TrainingRequest.status r = "pending")
           (training_requests db) in
  ∃ requests,
    get_pending_requests current_user db = (inr requests, db)
    ∧ (λ resp, (request_of_response resp,
                Employee.name (TrainingRequestResponse.employee resp))) <$> requests
      ≡ₚ (r ← pending;
          me ← directory_rows db (TrainingRequest.employee_empid r);
          [(r, ManagerEmployee.employee_name me)])
    ∧ StronglySorted
        (λ a b, TrainingRequestResponse.request_date b
                ≤ TrainingRequestResponse.request_date a)
        requests
    ∧ ((∀ r, r ∈ pending →
             length (directory_rows db (TrainingRequest.employee_empid r)) = 1%nat) →
       request_of_response <$> requests ≡ₚ pending).
Proof.
  intros Hauth Hfk pending.
  pose proof (pending_rows_joined M db) as Hrows. fold pending in Hrows.
  destruct (for_each_total (request_dict db) (pending_rows M db))
    as (requests & Hfor & Hall).
  { intros [r name] Hin. apply request_dict_total, Hfk. simpl.
    rewrite Hrows in Hin. apply list_elem_of_fmap in Hin as ([r' me] & [= -> ->] & Hin).
    apply elem_of_joined in Hin as (Hin & _).
    by apply list_elem_of_filter in Hin as [_ ?]. }
  assert ((λ resp, (request_of_response resp,
                    Employee.name (TrainingRequestResponse.employee resp)))
            <$> requests = pending_rows M db) as Hproj.
  { apply Forall2_fmap_eq. eapply Forall2_impl; [exact Hall|].
    intros [r name] resp Hdict. simpl in *.
    apply request_dict_inr in Hdict as (-> & -> & _). done. }
  exists requests. split_and!.
  - unfold get_pending_requests, bind.
    rewrite (get_current_username_ok _ _ _ Hauth). unfold execute. simpl.
    by rewrite Hfor.
  - by rewrite Hproj, Hrows, select_columns_joined.
  - pose proof (order_by_desc_sorted
                  (λ row : TrainingRequest.t * string, TrainingRequest.request_date row.1)
                  (select_columns <$>
                     filter (λ joined, TrainingRequest.manager_empid joined.1 = M
                                       ∧ TrainingRequest.status joined.1 = "pending")
                            (join_manager_employee db))) as Hsorted.
    fold (pending_rows M db) in Hsorted. rewrite <- Hproj in Hsorted.
    by apply StronglySorted_fmap_inv in Hsorted.
  - intros Hone.
    assert (request_of_response <$> requests = fst <$> pending_rows M db) as ->.
    { rewrite <- Hproj, <- list_fmap_compose. done. }
    rewrite Hrows, <- list_fmap_compose.
    rewrite (list_fmap_ext (fst ∘ select_columns) fst) by done.
    by rewrite joined_one_row.
Qed.

Lemma db_listing_foreign_key : employee_foreign_key db_listing.
Proof.
  intros r Hr. unfold db_listing in *. cbn [training_requests users] in *.
  repeat (apply elem_of_cons in Hr as [->|Hr]); [..|by apply elem_of_nil in Hr];
    match goal with |- ∃ u, _ ∧ _ = ?e => exists (User.mk e) end;
    (split; [|reflexivity]); cbn; rewrite !elem_of_cons; auto.
Qed.

Example list_pending_requests_db_listing :
  let pending :=
    [TrainingRequest.mk 1 5 "e1" "m1" 100 "pending" None None;
     TrainingRequest.mk 3 5 "e2" "m1" 200 "pending" None None] in
  ∃ requests,
    get_pending_requests (as_user "m1") db_listing = (inr requests, db_listing)
    ∧ (λ resp, (request_of_response resp,
                Employee.name (TrainingRequestResponse.employee resp))) <$> requests
      ≡ₚ (r ← pending;
          me ← directory_rows db_listing (TrainingRequest.employee_empid r);
          [(r, ManagerEmployee.employee_name me)])
    ∧ StronglySorted
        (λ a b, TrainingRequestResponse.request_date b
                ≤ TrainingRequestResponse.request_date a)
        requests
    ∧ request_of_response <$> requests ≡ₚ pending.
Proof.
  intros pending.
  destruct (list_pending_requests (as_user "m1") "m1" db_listing)
    as (requests & Hout & Hpairs & Hsorted & Hone).
  - by apply authenticated_as_user.
  - exact db_listing_foreign_key.
  - exists requests. split_and!; [done..|].
    apply Hone. intros r Hr.
    change (r ∈ pending) in Hr. unfold pending in Hr.
    by repeat (apply elem_of_cons in Hr as [->|Hr]); [..|apply elem_of_nil in Hr].
Qed.

Example list_pending_requests_example :
  match (get_pending_requests (as_user "m1") db_listing).1 with
  | inr rows =>
      Some ((λ resp, (TrainingRequestResponse.id resp,
                      Employee.name (TrainingRequestResponse.employee resp))) <$> rows)
  | inl _ => None
  end = Some [(3, "Ed Two"); (1, "Eve One")].
Proof. reflexivity. Qed.

(** C6.  The docstring of [get_pending_requests] promises all pending
    requests of the manager, and the join is there to get the employee
    name; being an inner join, it also drops the requests whose employee
    has no directory row.  In [db1_without_directory] the request of [e1]
    is stored, pending, with manager [m1], the foreign key to [users]
    holds, and [get_pending_requests] called by [m1] returns the empty
    list. *)
Theorem pending_request_not_listed :
  filter (λ r, TrainingRequest.manager_empid r = "m1"
               ∧ TrainingRequest.status r = "pending")
         (training_requests db1_without_directory)
  = [req1]
  ∧ employee_foreign_key db1_without_directory
  ∧ get_pending_requests (as_user "m1") db1_without_directory
    = (inr [], db1_without_directory).
Proof.
  split_and!; [reflexivity| |reflexivity].
  intros r Hr. exists (User.mk "e1").
  apply list_elem_of_singleton in Hr as ->. split; [by left|done].
Qed.

(** ** Respond to request *)

Section respond.

Variable request_id : Z.
Variable response_data : TrainingRequestUpdate.
Variable current_user : gmap string string.
Variable now : Z.

(** Every way [respond_to_request] can end for an authenticated caller. *)
Lemma respond_to_request_checks db M :
  authenticated current_user M →
  let out := respond_to_request request_id response_data current_user now db in
  let found := filter (λ r, TrainingRequest.id r = request_id) (training_requests db) in
  (found = [] ∧
   out = (inl (HTTPException HTTP_404_NOT_FOUND "Training request not found"), db))
  ∨ ((1 < length found)%nat ∧ out = (inl MultipleResultsFound, db))
  ∨ ∃ request, found = [request] ∧
    ( (TrainingRequest.manager_empid request ≠ M ∧
       out = (inl (HTTPException HTTP_403_FORBIDDEN
                     "You are not authorized to respond to this request"), db))
    ∨ (TrainingRequest.manager_empid request = M ∧
       TrainingRequest.status request ≠ "pending" ∧
       out = (inl (HTTPException HTTP_400_BAD_REQUEST
                     "This request has already been responded to"), db))
    ∨ (TrainingRequest.manager_empid request = M ∧
       TrainingRequest.status request = "pending" ∧
       let db' := responded db request response_data now in
       out = (match first (refetched db' request_id) with
              | None => inl not_found_after_update
              | Some row => request_dict db' row
              end, db'))).
Proof.
  intros Hauth out found.
  subst out. unfold respond_to_request, bind.
  rewrite (get_current_username_ok _ _ _ Hauth). unfold execute.
  fold found.
  assert (found = filter (λ r, TrainingRequest.id r = request_id)
                         (training_requests db)) as Hfound by done.
  clearbody found. destruct found as [|request [|request' found]]; simpl.
  - by left.
  - right; right. exists request. split; [done|].
    destruct (decide (TrainingRequest.manager_empid request ≠ M)) as [Hne|Heq].
    { by left. }
    apply dec_stable in Heq.
    destruct (decide (TrainingRequest.status request ≠ "pending")) as [Hst|Hst].
    { right; left. done. }
    apply dec_stable in Hst. right; right. split_and!; [done..|].
    assert (TrainingRequest.id request = request_id) as Hid.
    { assert (request ∈ filter (λ r, TrainingRequest.id r = request_id)
                               (training_requests db)) as Hin
        by (rewrite <- Hfound; by left).
      by apply list_elem_of_filter in Hin as [? _]. }
    unfold responded, refetched. simpl. rewrite Hid.
    destruct (first _) as [row|]; [|done].
    unfold lift. by destruct (request_dict _ row).
  - right; left. split; [lia|done].
Qed.

Lemma respond_to_request_unauthenticated db :
  (∀ M, ¬ authenticated current_user M) →
  respond_to_request request_id response_data current_user now db
  = (inl (HTTPException HTTP_401_UNAUTHORIZED "Could not validate credentials"), db).
Proof.
  intros Hno.
  destruct (get_current_username current_user db) as [r db1] eqn:Hu.
  destruct (get_current_username_inv _ _ _ _ Hu) as [-> [->|(M & -> & Hauth)]].
  - unfold respond_to_request, bind. by rewrite Hu.
  - by destruct (Hno M).
Qed.

(** The response passes the three checks. *)
Lemma respond_passes db request :
  authenticated current_user (TrainingRequest.manager_empid request) →
  filter (λ r, TrainingRequest.id r = request_id) (training_requests db) = [request] →
  TrainingRequest.status request = "pending" →
  let db' := responded db request response_data now in
  respond_to_request request_id response_data current_user now db
  = (match first (refetched db' request_id) with
     | None => inl not_found_after_update
     | Some row => request_dict db' row
     end, db').
Proof.
  intros Hauth Hfound Hpending.
  assert (TrainingRequest.id request = request_id) as Hid.
  { assert (request ∈ filter (λ r, TrainingRequest.id r = request_id)
                             (training_requests db)) as Hin
      by (rewrite Hfound; by left).
    by apply list_elem_of_filter in Hin as [? _]. }
  unfold respond_to_request, bind.
  rewrite (get_current_username_ok _ _ _ Hauth). unfold execute.
  rewrite Hfound. simpl.
  rewrite decide_False by (by intros []).
  rewrite decide_False by (by intros []).
  unfold responded, refetched. simpl. rewrite Hid.
  destruct (first _) as [row|]; [|done].
  unfold lift. by destruct (request_dict _ row).
Qed.

End respond.

Section updated_rows.

Variable response_data : TrainingRequestUpdate.
Variable now : Z.
Variable k : Z.

Lemma update_row_id r :
  TrainingRequest.id (update_row k response_data now r) = TrainingRequest.id r.
Proof. unfold update_row. by destruct (decide _). Qed.

Lemma filter_updated (P : TrainingRequest.t → Prop) `{!∀ r, Decision (P r)}
    (l : list TrainingRequest.t) :
  (∀ r, P (update_row k response_data now r) ↔ P r) →
  filter P (update_row k response_data now <$> l)
  = update_row k response_data now <$> filter P l.
Proof.
  intros HP. induction l as [|r l IH]; [done|].
  rewrite fmap_cons. destruct (decide (P r)) as [Hr|Hr].
  - rewrite !filter_cons_True, fmap_cons, IH; [done..|by apply HP].
  - rewrite !filter_cons_False, IH; [done..|by rewrite HP].
Qed.

Lemma updated_others (l : list TrainingRequest.t) :
  Forall (λ r, TrainingRequest.id r ≠ k) l →
  update_row k response_data now <$> l = l.
Proof.
  induction 1 as [|r l Hr _ IH]; [done|].
  rewrite fmap_cons, IH. unfold update_row. by rewrite decide_False.
Qed.

End updated_rows.

Lemma responded_requests db req response_data now :
  training_requests (responded db req response_data now)
  = update_row (TrainingRequest.id req) response_data now <$> training_requests db.
Proof. reflexivity. Qed.

Lemma responded_transitioned db req response_data now :
  filter (λ r, TrainingRequest.id r = TrainingRequest.id req) (training_requests db)
  = [req] →
  transitioned db (responded db req response_data now) req
    (update_status response_data) (update_manager_notes response_data) now.
Proof.
  intros Hfound. unfold transitioned. rewrite responded_requests. split.
  - exists (set_response response_data now req). split; [|done].
    rewrite filter_updated by (intros r; by rewrite update_row_id).
    rewrite Hfound, list_fmap_singleton. unfold update_row. by rewrite decide_True.
  - rewrite filter_updated by (intros r; by rewrite update_row_id).
    apply updated_others, Forall_forall. by intros r [? _]%list_elem_of_filter.
Qed.

Lemma responded_assignments db req response_data now :
  training_assignments (responded db req response_data now)
  = training_assignments db ++
      (if decide (update_status response_data = "approved")
       then [TrainingAssignment.mk (TrainingRequest.training_id req)
                                   (TrainingRequest.employee_empid req)
                                   (TrainingRequest.manager_empid req)]
       else []).
Proof. reflexivity. Qed.

(** C1. For a pending request [req] of a database that keeps its primary
    key, a [respond_to_request] by the authenticated stored manager with
    status ['approved'] leaves the request with status ['approved'], the
    submitted notes and [response_date] set to the time of the call, and
    appends exactly one assignment carrying the request's [training_id],
    [employee_empid] and [manager_empid]; with status ['rejected'] the
    request is updated the same way and the assignments are as before. *)
Theorem respond_approved_or_rejected req notes current_user now db :
  primary_key db →
  req ∈ training_requests db →
  TrainingRequest.status req = "pending" →
  authenticated current_user (TrainingRequest.manager_empid req) →
  let respond st :=
    (respond_to_request (TrainingRequest.id req)
       {| update_status := st; update_manager_notes := notes |}
       current_user now db).2 in
  (transitioned db (respond "approved") req "approved" notes now
   ∧ ∃ a, training_assignments (respond "approved") = training_assignments db ++ [a]
          ∧ copied_from a req)
  ∧ (transitioned db (respond "rejected") req "rejected" notes now
     ∧ training_assignments (respond "rejected") = training_assignments db).
Proof.
  intros Hpk Hin Hpending Hauth respond.
  pose proof (filter_primary_key _ _ Hpk Hin) as Hfound.
  subst respond. cbv beta.
  rewrite !(respond_passes _ _ _ _ _ _ Hauth Hfound Hpending).
  cbn [snd]. split; split.
  - apply (responded_transitioned db req
             {| update_status := "approved"; update_manager_notes := notes |} now Hfound).
  - eexists. rewrite responded_assignments. simpl. split; [reflexivity|done].
  - apply (responded_transitioned db req
             {| update_status := "rejected"; update_manager_notes := notes |} now Hfound).
  - rewrite responded_assignments. simpl. by rewrite app_nil_r.
Qed.

(** C10. The submitted status is stored as it is: for a pending request
    of a database that keeps its primary key and any [response_data], a
    [respond_to_request] by the authenticated stored manager leaves the
    request with status [update_status response_data]; one assignment
    copied from the request is appended when that string is ['approved'],
    and the assignments are as before for every other string. *)
Theorem respond_stores_submitted_status req response_data current_user now db :
  primary_key db →
  req ∈ training_requests db →
  TrainingRequest.status req = "pending" →
  authenticated current_user (TrainingRequest.manager_empid req) →
  let db' :=
    (respond_to_request (TrainingRequest.id req) response_data current_user now db).2 in
  transitioned db db' req
    (update_status response_data) (update_manager_notes response_data) now
  ∧ (update_status response_data = "approved" →
     ∃ a, training_assignments db' = training_assignments db ++ [a]
          ∧ copied_from a req)
  ∧ (update_status response_data ≠ "approved" →
     training_assignments db' = training_assignments db).
Proof.
  intros Hpk Hin Hpending Hauth db'.
  pose proof (filter_primary_key _ _ Hpk Hin) as Hfound.
  subst db'. rewrite (respond_passes _ _ _ _ _ _ Hauth Hfound Hpending). cbn [snd].
  split_and!.
  - by apply responded_transitioned.
  - intros Hst. eexists. rewrite responded_assignments, decide_True by done.
    split; [reflexivity|done].
  - intros Hst. rewrite responded_assignments, decide_False by done.
    by rewrite app_nil_r.
Qed.

Lemma db1_primary_key : primary_key db1.
Proof. unfold primary_key. vm_compute. apply NoDup_singleton. Qed.

Lemma req1_in_db1 : req1 ∈ training_requests db1.
Proof. vm_compute. by left. Qed.

Lemma respond_approved_or_rejected_witness :
  let respond st :=
    (respond_to_request 1
       {| update_status := st; update_manager_notes := Some "ok" |}
       (as_user "m1") 200 db1).2 in
  (transitioned db1 (respond "approved") req1 "approved" (Some "ok") 200
   ∧ ∃ a, training_assignments (respond "approved") = training_assignments db1 ++ [a]
          ∧ copied_from a req1)
  ∧ (transitioned db1 (respond "rejected") req1 "rejected" (Some "ok") 200
     ∧ training_assignments (respond "rejected") = training_assignments db1).
Proof.
  apply (respond_approved_or_rejected req1 (Some "ok") (as_user "m1") 200 db1).
  - exact db1_primary_key.
  - exact req1_in_db1.
  - reflexivity.
  - by apply authenticated_as_user.
Defined.

(** A status outside ['approved'] and ['rejected'] goes through. *)
Lemma respond_stores_submitted_status_witness :
  let db' :=
    (respond_to_request 1
       {| update_status := "cancelled"; update_manager_notes := None |}
       (as_user "m1") 200 db1).2 in
  transitioned db1 db' req1 "cancelled" None 200
  ∧ training_assignments db' = training_assignments db1.
Proof.
  intros db'.
  destruct (respond_stores_submitted_status req1
              {| update_status := "cancelled"; update_manager_notes := None |}
              (as_user "m1") 200 db1)
    as (Hrow & _ & Hnone).
  - exact db1_primary_key.
  - exact req1_in_db1.
  - reflexivity.
  - by apply authenticated_as_user.
  - split; [exact Hrow|]. by apply Hnone.
Defined.

(** ** The re-fetch after the update *)

Lemma refetched_responded db req response_data now :
  filter (λ r, TrainingRequest.id r = TrainingRequest.id req) (training_requests db)
  = [req] →
  refetched (responded db req response_data now) (TrainingRequest.id req)
  = (λ me, (set_response response_data now req, ManagerEmployee.employee_name me))
      <$> directory_rows db (TrainingRequest.employee_empid req).
Proof.
  intros Hfound. unfold refetched.
  rewrite join_manager_employee_eq.
  pose proof (filter_joined (responded db req response_data now)
                (λ r, TrainingRequest.id r = TrainingRequest.id req)
                (training_requests (responded db req response_data now))) as Hjoin.
  cbv beta in Hjoin. rewrite Hjoin. clear Hjoin.
  rewrite responded_requests.
  rewrite filter_updated by (intros r; by rewrite update_row_id).
  rewrite Hfound, list_fmap_singleton. unfold update_row. rewrite decide_True by done.
  rewrite select_columns_joined, bind_singleton.
  change (directory_rows (responded db req response_data now))
    with (directory_rows db).
  change (TrainingRequest.employee_empid (set_response response_data now req))
    with (TrainingRequest.employee_empid req).
  induction (directory_rows db (TrainingRequest.employee_empid req)) as [|me mes IH];
    [done|].
  by rewrite bind_cons, fmap_cons, IH.
Qed.

(** C5, as amended.  Once the three checks have passed and the update
    is committed, the re-fetch joins the request with the directory: it
    finds nothing, and the route raises the 404 "Training request not
    found after update", exactly when the directory holds no row for the
    request's employee.  With a directory row, and the employee's [users]
    row in place, the route returns the updated request with the name of
    the first directory row. *)
Theorem refetch_after_update req response_data current_user now db :
  primary_key db →
  req ∈ training_requests db →
  TrainingRequest.status req = "pending" →
  authenticated current_user (TrainingRequest.manager_empid req) →
  let out :=
    (respond_to_request (TrainingRequest.id req) response_data current_user now db).1 in
  (out = inl not_found_after_update
   ↔ directory_rows db (TrainingRequest.employee_empid req) = [])
  ∧ (∀ me mes u,
       directory_rows db (TrainingRequest.employee_empid req) = me :: mes →
       u ∈ users db → User.username u = TrainingRequest.employee_empid req →
       ∃ resp, out = inr resp
         ∧ request_of_response resp = set_response response_data now req
         ∧ Employee.name (TrainingRequestResponse.employee resp)
           = ManagerEmployee.employee_name me).
Proof.
  intros Hpk Hin Hpending Hauth out.
  pose proof (filter_primary_key _ _ Hpk Hin) as Hfound.
  subst out. rewrite (respond_passes _ _ _ _ _ _ Hauth Hfound Hpending). cbn [fst].
  rewrite (refetched_responded _ _ _ _ Hfound).
  destruct (directory_rows db (TrainingRequest.employee_empid req)) as [|me mes].
  - split; [done|]. by intros me mes u [=].
  - rewrite fmap_cons. cbn [first head]. split.
    + split; [|done]. intros Hout. exfalso.
      destruct (request_dict_cases (responded db req response_data now)
                  (set_response response_data now req,
                   ManagerEmployee.employee_name me))
        as [Herr|[resp Hresp]]; rewrite Hout in *; discriminate.
    + intros me' mes' u [= <- <-] Hu Hname.
      destruct (request_dict_total (responded db req response_data now)
                  (set_response response_data now req,
                   ManagerEmployee.employee_name me))
        as [resp Hresp]; [by exists u|].
      exists resp. split; [done|].
      by apply request_dict_inr in Hresp as (? & ? & _).
Qed.

Lemma refetch_after_update_witness :
  let out :=
    (respond_to_request 1
       {| update_status := "approved"; update_manager_notes := Some "ok" |}
       (as_user "m1") 200 db1).1 in
  out ≠ inl not_found_after_update
  ∧ ∃ resp, out = inr resp
      ∧ request_of_response resp
        = TrainingRequest.mk 1 5 "e1" "m1" 100 "approved" (Some "ok") (Some 200)
      ∧ Employee.name (TrainingRequestResponse.employee resp) = "Eve One".
Proof.
  destruct (refetch_after_update req1
              {| update_status := "approved"; update_manager_notes := Some "ok" |}
              (as_user "m1") 200 db1)
    as [Hiff Hfound].
  - exact db1_primary_key.
  - exact req1_in_db1.
  - reflexivity.
  - by apply authenticated_as_user.
  - split.
    + intros Hout. apply Hiff in Hout. discriminate Hout.
    + apply (Hfound (ManagerEmployee.mk "m1" "e1" "Eve One") [] (User.mk "e1")).
      * reflexivity.
      * by left.
      * reflexivity.
Defined.

Lemma db1_without_directory_primary_key : primary_key db1_without_directory.
Proof. unfold primary_key. vm_compute. apply NoDup_singleton. Qed.

Lemma req1_in_db1_without_directory : req1 ∈ training_requests db1_without_directory.
Proof. vm_compute. by left. Qed.

(** C5 as written fails: in [db1_without_directory] the request of [e1]
    is pending and [m1] is its manager, so the three checks pass, and the
    route raises the 404 after the update. *)
Lemma refetch_finds_nothing :
  ¬ (∀ req response_data current_user now db,
       primary_key db →
       req ∈ training_requests db →
       TrainingRequest.status req = "pending" →
       authenticated current_user (TrainingRequest.manager_empid req) →
       (respond_to_request (TrainingRequest.id req) response_data current_user now db).1
       ≠ inl not_found_after_update).
Proof.
  intros H.
  apply (H req1 {| update_status := "approved"; update_manager_notes := Some "ok" |}
           (as_user "m1") 200 db1_without_directory).
  - exact db1_without_directory_primary_key.
  - exact req1_in_db1_without_directory.
  - reflexivity.
  - by apply authenticated_as_user.
  - reflexivity.
Qed.

(** ** Failing responses *)

(** C2, as amended.  A [respond_to_request] that raises at one of its
    checks leaves the database as it was: every exception other than the
    two raised after the commit comes with the database unchanged.  For a
    stored request of a database that keeps its primary key, an
    authenticated caller who is not the stored manager gets the 403, and
    the stored manager of a request that is not pending gets the 400
    "This request has already been responded to". *)
Theorem respond_check_failures request_id response_data current_user now db :
  let out := respond_to_request request_id response_data current_user now db in
  (∀ e, out.1 = inl e → ¬ raised_after_commit e → out.2 = db)
  ∧ (∀ M req,
       authenticated current_user M →
       primary_key db →
       req ∈ training_requests db →
       TrainingRequest.id req = request_id →
       (TrainingRequest.manager_empid req ≠ M →
        out = (inl (HTTPException HTTP_403_FORBIDDEN
                      "You are not authorized to respond to this request"), db))
       ∧ (TrainingRequest.manager_empid req = M →
          TrainingRequest.status req ≠ "pending" →
          out = (inl (HTTPException HTTP_400_BAD_REQUEST
                        "This request has already been responded to"), db))).
Proof.
  intros out.
  split.
  - intros e He Hafter.
    destruct (authenticated_or_not current_user) as [[M Hauth]|Hno].
    2:{ subst out. by rewrite respond_to_request_unauthenticated. }
    pose proof (respond_to_request_checks request_id response_data current_user now
                  db M Hauth) as Hc.
    cbv zeta in Hc. fold out in Hc.
    destruct Hc as [[_ ->]|[[_ ->]|(request & _ & Hc)]]; [done..|].
    destruct Hc as [[_ ->]|[(_ & _ & ->)|(_ & _ & Hout)]]; [done..|].
    rewrite Hout in He. cbn [fst] in He. exfalso. apply Hafter.
    destruct (first _) as [row|]; [|left; congruence].
    destruct (request_dict_cases (responded db request response_data now) row)
      as [Herr|[resp Hresp]]; [right; congruence|congruence].
  - intros M req Hauth Hpk Hin <-.
    pose proof (filter_primary_key _ _ Hpk Hin) as Hfound.
    pose proof (respond_to_request_checks (TrainingRequest.id req) response_data
                  current_user now db M Hauth) as Hc.
    cbv zeta in Hc. fold out in Hc. rewrite Hfound in Hc.
    destruct Hc as [[[=] _]|[[Hlen _]|(request & [= <-] & Hc)]]; [simpl in Hlen; lia|].
    split.
    + intros Hne. by destruct Hc as [[_ ->]|[(? & _)|(? & _)]].
    + intros Heq Hst. by destruct Hc as [[? _]|[(_ & _ & ->)|(_ & ? & _)]].
Qed.

Lemma respond_check_failures_witness :
  respond_to_request 1
    {| update_status := "approved"; update_manager_notes := None |}
    (as_user "m2") 300 db1
  = (inl (HTTPException HTTP_403_FORBIDDEN
            "You are not authorized to respond to this request"), db1)
  ∧ respond_to_request 1
      {| update_status := "rejected"; update_manager_notes := None |}
      (as_user "m1") 300 db2
    = (inl (HTTPException HTTP_400_BAD_REQUEST
              "This request has already been responded to"), db2)
  ∧ (respond_to_request 1
       {| update_status := "rejected"; update_manager_notes := None |}
       (as_user "m1") 300 db2).2 = db2.
Proof.
  destruct (respond_check_failures 1
              {| update_status := "approved"; update_manager_notes := None |}
              (as_user "m2") 300 db1) as [_ Hforbidden].
  destruct (respond_check_failures 1
              {| update_status := "rejected"; update_manager_notes := None |}
              (as_user "m1") 300 db2) as [Hunchanged Hconflict].
  split_and!.
  - apply (Hforbidden "m2" req1).
    + by apply authenticated_as_user.
    + exact db1_primary_key.
    + exact req1_in_db1.
    + reflexivity.
    + done.
  - apply (Hconflict "m1" req2).
    + by apply authenticated_as_user.
    + unfold primary_key. vm_compute. apply NoDup_singleton.
    + vm_compute. by left.
    + reflexivity.
    + reflexivity.
    + done.
  - apply (Hunchanged (HTTPException HTTP_400_BAD_REQUEST
                         "This request has already been responded to")).
    + reflexivity.
    + by intros [[=]|[=]].
Defined.

(** C2 as written fails: in [db1_without_directory] the response of [m1]
    raises the 404 "Training request not found after update" and leaves
    the request approved and an assignment stored. *)
Lemma failing_response_changes_stores :
  ¬ (∀ request_id response_data current_user now db e,
       (respond_to_request request_id response_data current_user now db).1 = inl e →
       (respond_to_request request_id response_data current_user now db).2 = db).
Proof.
  intros H.
  specialize (H 1 {| update_status := "approved"; update_manager_notes := Some "ok" |}
                (as_user "m1") 200 db1_without_directory
                not_found_after_update eq_refl).
  vm_compute in H. discriminate H.
Qed.

(** ** The status state machine *)

Lemma get_my_training_requests_db current_user db :
  (get_my_training_requests current_user db).2 = db.
Proof.
  unfold get_my_training_requests, bind.
  destruct (get_current_username current_user db) as [r db1] eqn:Hu.
  by destruct (get_current_username_inv _ _ _ _ Hu) as [-> [->|(M & -> & _)]].
Qed.

Lemma get_pending_requests_db current_user db :
  (get_pending_requests current_user db).2 = db.
Proof.
  unfold get_pending_requests, bind.
  destruct (get_current_username current_user db) as [r db1] eqn:Hu.
  destruct (get_current_username_inv _ _ _ _ Hu) as [-> [->|(M & -> & _)]]; [done|].
  unfold execute. simpl. by destruct (for_each _ _).
Qed.

(** What a call does to the request store: nothing, one pending row
    appended, or the update of a pending row found under its [id]. *)
Lemma run_training_requests c db :
  training_requests (run c db) = training_requests db
  ∨ (∃ r, training_requests (run c db) = training_requests db ++ [r]
          ∧ TrainingRequest.status r = "pending"
          ∧ TrainingRequest.id r ∉ (TrainingRequest.id <$> training_requests db))
  ∨ (∃ request_id response_data current_user now request,
       c = RespondToRequest request_id response_data current_user now
       ∧ filter (λ r, TrainingRequest.id r = request_id) (training_requests db)
         = [request]
       ∧ TrainingRequest.status request = "pending"
       ∧ training_requests (run c db)
         = update_row request_id response_data now <$> training_requests db).
Proof.
  destruct c as [request_data current_user now|current_user|current_user
                |request_id response_data current_user now]; simpl.
  - destruct (create_training_request request_data current_user now db)
      as [[e|resp] db'] eqn:Hout.
    + left. by apply create_training_request_inl in Hout.
    + right; left.
      apply create_training_request_inr in Hout
        as (E & t & me & _ & _ & _ & _ & Hfresh & _ & ->).
      by eexists.
  - left. by rewrite get_my_training_requests_db.
  - left. by rewrite get_pending_requests_db.
  - destruct (authenticated_or_not current_user) as [[M Hauth]|Hno].
    2:{ left. by rewrite respond_to_request_unauthenticated. }
    pose proof (respond_to_request_checks request_id response_data current_user now
                  db M Hauth) as Hc.
    cbv zeta in Hc.
    destruct Hc as [[_ ->]|[[_ ->]|(request & Hfound & Hc)]]; [by left..|].
    destruct Hc as [[_ ->]|[(_ & _ & ->)|(_ & Hpending & ->)]]; [by left..|].
    right; right. exists request_id, response_data, current_user, now, request.
    split_and!; [done..|].
    cbn [snd]. rewrite responded_requests. f_equal. f_equal.
    assert (request ∈ filter (λ r, TrainingRequest.id r = request_id)
                             (training_requests db)) as Hin
      by (rewrite Hfound; by left).
    by apply list_elem_of_filter in Hin as [? _].
Qed.

Lemma run_created_pending c db i r :
  (length (training_requests db) ≤ i)%nat →
  training_requests (run c db) !! i = Some r →
  TrainingRequest.status r = "pending".
Proof.
  intros Hi Hr.
  destruct (run_training_requests c db)
    as [Heq|[(r' & Heq & Hst & _)|(rid & data & cu & now & req & _ & _ & _ & Heq)]];
    rewrite Heq in Hr.
  - apply lookup_lt_Some in Hr. lia.
  - rewrite lookup_app_r in Hr by done.
    apply list_lookup_singleton_Some in Hr as [_ <-]. done.
  - apply lookup_lt_Some in Hr. rewrite length_fmap in Hr. lia.
Qed.

Lemma run_keeps_responded c db i r :
  training_requests db !! i = Some r →
  TrainingRequest.status r ≠ "pending" →
  training_requests (run c db) !! i = Some r.
Proof.
  intros Hr Hst.
  destruct (run_training_requests c db)
    as [Heq|[(r' & Heq & _ & _)|(rid & data & cu & now & req & _ & Hfound & Hpending & Heq)]];
    rewrite Heq.
  - done.
  - by apply lookup_app_l_Some.
  - rewrite list_lookup_fmap, Hr. simpl. f_equal.
    unfold update_row. destruct (decide (TrainingRequest.id r = rid)) as [Hid|]; [|done].
    assert (r ∈ filter (λ r, TrainingRequest.id r = rid) (training_requests db)) as Hin.
    { apply list_elem_of_filter. split; [done|]. by eapply list_elem_of_lookup_2. }
    rewrite Hfound in Hin. apply list_elem_of_singleton in Hin as ->. done.
Qed.

Lemma run_keeps_statuses c db :
  submits_decision c →
  Forall (λ r, TrainingRequest.status r ∈ statuses) (training_requests db) →
  Forall (λ r, TrainingRequest.status r ∈ statuses) (training_requests (run c db)).
Proof.
  intros Hc Hall.
  destruct (run_training_requests c db)
    as [Heq|[(r' & Heq & Hst & _)|(rid & data & cu & now & req & -> & _ & _ & Heq)]];
    rewrite Heq.
  - done.
  - apply Forall_app. split; [done|]. constructor; [|done].
    rewrite Hst. by left.
  - apply Forall_fmap. eapply Forall_impl; [exact Hall|].
    intros r Hr. unfold update_row. simpl.
    destruct (decide _); [|done]. simpl.
    destruct Hc as [-> | ->]; unfold statuses; rewrite !elem_of_cons; auto.
Qed.

(** The primary key assumed of the database in the statements about
    responses is kept by every call. *)
Lemma run_primary_key c db : primary_key db → primary_key (run c db).
Proof.
  unfold primary_key. intros Hpk.
  destruct (run_training_requests c db)
    as [Heq|[(r' & Heq & _ & Hfresh)|(rid & data & cu & now & req & _ & _ & _ & Heq)]];
    rewrite Heq.
  - done.
  - rewrite fmap_app. apply NoDup_app. split_and!; [done| |apply NoDup_singleton].
    intros k Hk [->|[]%elem_of_nil]%elem_of_cons. done.
  - rewrite <- list_fmap_compose.
    rewrite (list_fmap_ext (TrainingRequest.id ∘ update_row rid data now)
                           TrainingRequest.id); [done|].
    intros i r _. apply update_row_id.
Qed.

Lemma run_all_primary_key cs db : primary_key db → primary_key (run_all cs db).
Proof.
  revert db. induction cs as [|c cs IH]; intros db Hpk; [done|].
  simpl. by apply IH, run_primary_key.
Qed.

(** C4, as amended.  A row that a call adds to the request store has
    status ['pending'].  A stored request whose status is not ['pending']
    is left as it is by every sequence of calls: ['approved'],
    ['rejected'] and every other status that is not ['pending'] are
    terminal.  When every status in the store is one of ['pending'],
    ['approved'], ['rejected'], it stays so through every sequence of calls
    whose responses submit ['approved'] or ['rejected']; the route does not
    check the submitted status. *)
Theorem status_state_machine :
  (∀ c db i r,
     (length (training_requests db) ≤ i)%nat →
     training_requests (run c db) !! i = Some r →
     TrainingRequest.status r = "pending")
  ∧ (∀ cs db i r,
       training_requests db !! i = Some r →
       TrainingRequest.status r ≠ "pending" →
       training_requests (run_all cs db) !! i = Some r)
  ∧ (∀ cs db,
       Forall submits_decision cs →
       Forall (λ r, TrainingRequest.status r ∈ statuses) (training_requests db) →
       Forall (λ r, TrainingRequest.status r ∈ statuses)
              (training_requests (run_all cs db))).
Proof.
  split_and!.
  - apply run_created_pending.
  - intros cs. induction cs as [|c cs IH]; intros db i r Hr Hst; [done|].
    simpl. apply IH; [|done]. by apply run_keeps_responded.
  - intros cs. induction cs as [|c cs IH]; intros db Hcs Hall; [done|].
    apply Forall_cons in Hcs as [Hc Hcs].
    simpl. apply IH; [done|]. by apply run_keeps_statuses.
Qed.

Lemma status_state_machine_witness :
  TrainingRequest.status req1 = "pending"
  ∧ training_requests
      (run_all [RespondToRequest 1
                  {| update_status := "rejected"; update_manager_notes := None |}
                  (as_user "m1") 300;
                CreateRequest {| create_training_id := 5 |} (as_user "e1") 400]
               db2) !! 0%nat = Some req2
  ∧ Forall (λ r, TrainingRequest.status r ∈ statuses)
      (training_requests
         (run_all [CreateRequest {| create_training_id := 5 |} (as_user "e1") 100;
                   RespondToRequest 1
                     {| update_status := "approved"; update_manager_notes := Some "ok" |}
                     (as_user "m1") 200]
                  db0)).
Proof.
  destruct status_state_machine as (Hcreated & Hterminal & Hstatuses).
  split_and!.
  - apply (Hcreated (CreateRequest {| create_training_id := 5 |} (as_user "e1") 100)
             db0 0%nat req1).
    + simpl. lia.
    + reflexivity.
  - apply Hterminal.
    + reflexivity.
    + done.
  - apply Hstatuses.
    + repeat constructor.
    + constructor.
Defined.

(** C4 as written fails: [m1] answers the request of [e1] with the status
    ['cancelled'], and the store holds a request whose status is none of
    the three. *)
Lemma status_outside_the_three :
  ¬ (∀ cs db,
       Forall (λ r, TrainingRequest.status r ∈ statuses) (training_requests db) →
       Forall (λ r, TrainingRequest.status r ∈ statuses)
              (training_requests (run_all cs db))).
Proof.
  intros H.
  set (cs := [CreateRequest {| create_training_id := 5 |} (as_user "e1") 100;
              RespondToRequest 1
                {| update_status := "cancelled"; update_manager_notes := None |}
                (as_user "m1") 200]).
  assert (training_requests (run_all cs db0)
          = [TrainingRequest.mk 1 5 "e1" "m1" 100 "cancelled" None (Some 200)]) as Hrun
    by (by vm_compute).
  specialize (H cs db0 ltac:(constructor)). rewrite Hrun in H.
  apply Forall_cons in H as [H _]. unfold statuses in H. simpl in H.
  rewrite !elem_of_cons, elem_of_nil in H.
  by destruct H as [[=]|[[=]|[[=]|[]]]].
Qed.

(** * Further properties of the routes *)

(** ** Callers without a name *)

Lemma anonymous_not_authenticated current_user :
  anonymous current_user → ∀ M, ¬ authenticated current_user M.
Proof. intros [Hnone|Hempty] M [Hget Hne]; congruence. Qed.

Lemma get_current_username_anonymous current_user db :
  anonymous current_user →
  get_current_username current_user db = (inl unauthorized, db).
Proof.
  intros Hanon. unfold get_current_username.
  destruct Hanon as [-> | ->]; [done|]. by rewrite decide_True.
Qed.

(** X1. Each of the four routes, called with a [current_user] whose
    [username] is missing or empty, raises the 401 "Could not validate
    credentials" before it reads anything else, and leaves the database as
    it was. *)
Theorem anonymous_caller_refused current_user db :
  anonymous current_user →
  (∀ request_data now,
     create_training_request request_data current_user now db = (inl unauthorized, db))
  ∧ get_my_training_requests current_user db = (inl unauthorized, db)
  ∧ get_pending_requests current_user db = (inl unauthorized, db)
  ∧ (∀ request_id response_data now,
       respond_to_request request_id response_data current_user now db
       = (inl unauthorized, db)).
Proof.
  intros Hanon. split_and!; intros;
    unfold create_training_request, get_my_training_requests,
           get_pending_requests, respond_to_request, bind;
    by rewrite get_current_username_anonymous.
Qed.

Lemma anonymous_caller_refused_witness :
  (∀ request_data now,
     create_training_request request_data (as_user "") now db_listing
     = (inl unauthorized, db_listing))
  ∧ get_my_training_requests (as_user "") db_listing = (inl unauthorized, db_listing)
  ∧ get_pending_requests (as_user "") db_listing = (inl unauthorized, db_listing)
  ∧ (∀ request_id response_data now,
       respond_to_request request_id response_data (as_user "") now db_listing
       = (inl unauthorized, db_listing)).
Proof.
  apply (anonymous_caller_refused (as_user "") db_listing).
  right. reflexivity.
Defined.

(** ** Create request: the manager check and stored duplicates *)

(** X2. For an authenticated caller and a training that has its catalog
    row, [create_training_request] raises the 404 "No manager found for
    this employee" exactly when the directory has no row for the caller,
    whatever the request store holds; the database is then as it was. *)
Theorem create_without_manager request_data current_user now db E t :
  authenticated current_user E →
  catalog_rows db (create_training_id request_data) = [t] →
  let out := create_training_request request_data current_user now db in
  let no_manager :=
    HTTPException HTTP_404_NOT_FOUND "No manager found for this employee" in
  (out.1 = inl no_manager ↔ directory_rows db E = [])
  ∧ (directory_rows db E = [] → out = (inl no_manager, db)).
Proof.
  intros Hauth Hcat out no_manager.
  assert (directory_rows db E = [] → out = (inl no_manager, db)) as Hmissing
    by (intros; by apply create_manager_missing with E t).
  split; [|done]. split; [|by intros ->%Hmissing].
  intros Hout.
  pose proof (create_training_request_checks request_data current_user now db E Hauth)
    as Hc.
  cbv zeta in Hc. fold out in Hc. rewrite Hcat in Hc.
  destruct Hc as [[[=] _]|[[Hlen _]|(t' & _ & Hc)]]; [simpl in Hlen; lia|].
  destruct Hc as [[Hdir _]|[[_ Heq]|(me & _ & Hc)]]; [done|by rewrite Heq in Hout|].
  destruct Hc as [[_ Heq]|[[_ Heq]|[(_ & _ & Heq & _)|(_ & _ & Heq)]]];
    by rewrite Heq in Hout.
Qed.

Lemma create_without_manager_witness :
  let out :=
    create_training_request {| create_training_id := 5 |} (as_user "m1") 300 db_listing in
  let no_manager :=
    HTTPException HTTP_404_NOT_FOUND "No manager found for this employee" in
  (out.1 = inl no_manager ↔ directory_rows db_listing "m1" = [])
  ∧ (directory_rows db_listing "m1" = [] → out = (inl no_manager, db_listing)).
Proof.
  apply (create_without_manager _ _ _ _ "m1" (TrainingDetail.mk 5)).
  - by apply authenticated_as_user.
  - reflexivity.
Defined.



(** ** Respond to request: unknown requests, second responses *)



Lemma responded_found db req response_data now :
  filter (λ r, TrainingRequest.id r = TrainingRequest.id req) (training_requests db)
  = [req] →
  filter (λ r, TrainingRequest.id r = TrainingRequest.id req)
         (training_requests (responded db req response_data now))
  = [set_response response_data now req].
Proof.
  intros Hfound. rewrite responded_requests.
  rewrite filter_updated by (intros r; by rewrite update_row_id).
  rewrite Hfound, list_fmap_singleton. unfold update_row. by rewrite decide_True.
Qed.

(** X5. A request is answered once.  After a [respond_to_request] by the
    authenticated stored manager on a pending request, with any submitted
    status other than ['pending'], every further [respond_to_request] by
    that manager on the same request raises the 400 "This request has
    already been responded to" and leaves the database as it is. *)
Theorem respond_twice_refused req response_data current_user now db :
  primary_key db →
  req ∈ training_requests db →
  TrainingRequest.status req = "pending" →
  authenticated current_user (TrainingRequest.manager_empid req) →
  update_status response_data ≠ "pending" →
  let db' :=
    (respond_to_request (TrainingRequest.id req) response_data current_user now db).2 in
  ∀ response_data' now',
    respond_to_request (TrainingRequest.id req) response_data' current_user now' db'
    = (inl already_responded, db').
Proof.
  intros Hpk Hin Hpending Hauth Hst db' response_data' now'.
  pose proof (filter_primary_key _ _ Hpk Hin) as Hfound.
  subst db'. rewrite (respond_passes _ _ _ _ _ _ Hauth Hfound Hpending). cbn [snd].
  pose proof (respond_to_request_checks (TrainingRequest.id req) response_data'
                current_user now' (responded db req response_data now)
                _ Hauth) as Hc.
  cbv zeta in Hc. rewrite (responded_found _ _ _ _ Hfound) in Hc.
  destruct Hc as [[[=] _]|[[Hlen _]|(request & [= <-] & Hc)]]; [simpl in Hlen; lia|].
  destruct Hc as [[Hne _]|[(_ & _ & ->)|(_ & Hp & _)]]; done.
Qed.

Lemma respond_twice_refused_witness :
  respond_to_request 1
    {| update_status := "rejected"; update_manager_notes := Some "changed my mind" |}
    (as_user "m1") 300 db2
  = (inl already_responded, db2).
Proof.
  apply (respond_twice_refused req1
           {| update_status := "approved"; update_manager_notes := Some "ok" |}
           (as_user "m1") 200 db1).
  - exact db1_primary_key.
  - exact req1_in_db1.
  - reflexivity.
  - by apply authenticated_as_user.
  - done.
Defined.

(** X6. The status ['pending'] is accepted as a response like any other
    string: the request is left pending, with the notes and the response
    time written, and the manager can answer it again. *)
Theorem respond_pending_stays_open req notes current_user now db :
  primary_key db →
  req ∈ training_requests db →
  TrainingRequest.status req = "pending" →
  authenticated current_user (TrainingRequest.manager_empid req) →
  let db' :=
    (respond_to_request (TrainingRequest.id req)
       {| update_status := "pending"; update_manager_notes := notes |}
       current_user now db).2 in
  ∃ req',
    filter (λ r, TrainingRequest.id r = TrainingRequest.id req) (training_requests db')
    = [req']
    ∧ TrainingRequest.status req' = "pending"
    ∧ TrainingRequest.manager_notes req' = notes
    ∧ TrainingRequest.response_date req' = Some now
    ∧ training_assignments db' = training_assignments db
    ∧ ∀ response_data' now',
        transitioned db'
          (respond_to_request (TrainingRequest.id req) response_data'
             current_user now' db').2
          req' (update_status response_data') (update_manager_notes response_data') now'.
Proof.
  intros Hpk Hin Hpending Hauth db'.
  pose proof (filter_primary_key _ _ Hpk Hin) as Hfound.
  set (data := {| update_status := "pending"; update_manager_notes := notes |}) in *.
  subst db'. rewrite (respond_passes _ _ _ _ _ _ Hauth Hfound Hpending). cbn [snd].
  pose proof (responded_found db req data now Hfound) as Hfound'.
  exists (set_response data now req). split_and!; [done..| |].
  - rewrite responded_assignments. cbn. by rewrite app_nil_r.
  - intros response_data' now'.
    rewrite (respond_passes (TrainingRequest.id req) response_data' current_user now'
               _ (set_response data now req) Hauth Hfound' eq_refl).
    cbn [snd].
    by apply (responded_transitioned _ (set_response data now req)).
Qed.

Lemma respond_pending_stays_open_witness :
  let db' :=
    (respond_to_request 1
       {| update_status := "pending"; update_manager_notes := Some "later" |}
       (as_user "m1") 200 db1).2 in
  ∃ req',
    filter (λ r, TrainingRequest.id r = 1) (training_requests db') = [req']
    ∧ TrainingRequest.status req' = "pending"
    ∧ TrainingRequest.manager_notes req' = Some "later"
    ∧ TrainingRequest.response_date req' = Some 200
    ∧ training_assignments db' = training_assignments db1
    ∧ ∀ response_data' now',
        transitioned db'
          (respond_to_request 1 response_data' (as_user "m1") now' db').2
          req' (update_status response_data') (update_manager_notes response_data') now'.
Proof.
  apply (respond_pending_stays_open req1 (Some "later") (as_user "m1") 200 db1).
  - exact db1_primary_key.
  - exact req1_in_db1.
  - reflexivity.
  - by apply authenticated_as_user.
Defined.

(** ** What a call leaves behind *)

Lemma create_integrity_error request_data current_user now db E t me :
  authenticated current_user E →
  catalog_rows db (create_training_id request_data) = [t] →
  directory_rows db E = [me] →
  requests_for db (create_training_id request_data) E = [] →
  training_requests_id_seq db ∈ TrainingRequest.id <$> training_requests db →
  create_training_request request_data current_user now db
  = (inl IntegrityError, skipped db).
Proof.
  intros Hauth Hcat Hdir Hreq Hin.
  unfold create_training_request, bind.
  rewrite (get_current_username_ok _ _ _ Hauth).
  unfold execute, catalog_rows, directory_rows, requests_for in *.
  rewrite Hcat. simpl. rewrite Hdir. simpl. rewrite Hreq. simpl.
  unfold add_training_request. by rewrite decide_True.
Qed.

(** The four things a call can do to the database: nothing; move the
    sequence; append one pending request, for a pair that had none, under
    the next value of the sequence; answer one pending request found under
    its [id]. *)
Lemma run_cases c db :
  run c db = db
  ∨ run c db = skipped db
  ∨ (∃ r, run c db = inserted db r
          ∧ TrainingRequest.status r = "pending"
          ∧ TrainingRequest.id r = training_requests_id_seq db
          ∧ (TrainingRequest.id r ∉ TrainingRequest.id <$> training_requests db)
          ∧ requests_for db (TrainingRequest.training_id r)
                         (TrainingRequest.employee_empid r) = [])
  ∨ (∃ request_id response_data current_user now request,
       c = RespondToRequest request_id response_data current_user now
       ∧ filter (λ r, TrainingRequest.id r = request_id) (training_requests db)
         = [request]
       ∧ TrainingRequest.status request = "pending"
       ∧ run c db = responded db request response_data now).
Proof.
  destruct c as [request_data current_user now|current_user|current_user
                |request_id response_data current_user now]; simpl.
  - destruct (authenticated_or_not current_user) as [[E Hauth]|Hno].
    2:{ left. by rewrite create_unauthenticated. }
    pose proof (create_training_request_checks request_data current_user now db E Hauth)
      as Hc.
    cbv zeta in Hc.
    destruct Hc as [[_ ->]|[[_ ->]|(t & Hcat & Hc)]]; [by left..|].
    destruct Hc as [[_ ->]|[[_ ->]|(me & Hdir & Hc)]]; [by left..|].
    destruct Hc as [[_ ->]|[[_ ->]|[(Hreq & Hin & _)|(Hreq & Hfresh & ->)]]];
      [by left..| |].
    + right; left. by rewrite (create_integrity_error _ _ _ _ E t me).
    + right; right; left. eexists. by split_and!.
  - left. apply get_my_training_requests_db.
  - left. apply get_pending_requests_db.
  - destruct (authenticated_or_not current_user) as [[M Hauth]|Hno].
    2:{ left. by rewrite respond_to_request_unauthenticated. }
    pose proof (respond_to_request_checks request_id response_data current_user now
                  db M Hauth) as Hc.
    cbv zeta in Hc.
    destruct Hc as [[_ ->]|[[_ ->]|(request & Hfound & Hc)]]; [by left..|].
    destruct Hc as [[_ ->]|[(_ & _ & ->)|(_ & Hpending & ->)]]; [by left..|].
    right; right; right.
    by exists request_id, response_data, current_user, now, request.
Qed.

Lemma update_row_identity k response_data now r :
  identity_columns (update_row k response_data now r) = identity_columns r.
Proof. unfold update_row. by destruct (decide _). Qed.

(** A row that is not pending is not the row a response updates. *)
Lemma update_row_not_pending (l : list TrainingRequest.t) k response_data now request r :
  filter (λ r, TrainingRequest.id r = k) l = [request] →
  TrainingRequest.status request = "pending" →
  r ∈ l → TrainingRequest.status r ≠ "pending" →
  update_row k response_data now r = r.
Proof.
  intros Hfound Hpending Hin Hst. unfold update_row.
  destruct (decide (TrainingRequest.id r = k)) as [Hid|]; [|done].
  assert (r ∈ filter (λ r, TrainingRequest.id r = k) l) as Hr
    by (by apply list_elem_of_filter).
  rewrite Hfound in Hr. apply list_elem_of_singleton in Hr as ->. done.
Qed.

Section sequences.

(** An invariant of single calls is an invariant of sequences of calls. *)
Lemma run_all_invariant (I : DB → Prop) :
  (∀ c db, I db → I (run c db)) →
  ∀ cs db, I db → I (run_all cs db).
Proof.
  intros Hstep cs. induction cs as [|c cs IH]; intros db HI; [done|].
  simpl. by apply IH, Hstep.
Qed.

(** The same for a relation between the database before and after. *)
Lemma run_all_relation (R : DB → DB → Prop) :
  (∀ db, R db db) →
  (∀ db1 db2 db3, R db1 db2 → R db2 db3 → R db1 db3) →
  (∀ c db, R db (run c db)) →
  ∀ cs db, R db (run_all cs db).
Proof.
  intros Hrefl Htrans Hstep cs. induction cs as [|c cs IH]; intros db; [done|].
  simpl. eapply Htrans; [apply Hstep|apply IH].
Qed.

End sequences.

(** X7. No sequence of calls changes the catalog, the users or the
    directory: the routes only read [training_details], [users] and
    [manager_employee]. *)
Theorem collaborators_read_only cs db :
  training_details (run_all cs db) = training_details db
  ∧ users (run_all cs db) = users db
  ∧ manager_employee (run_all cs db) = manager_employee db.
Proof.
  revert cs db.
  apply (run_all_relation (λ db db',
           training_details db' = training_details db
           ∧ users db' = users db
           ∧ manager_employee db' = manager_employee db)).
  - done.
  - intros db1 db2 db3 (-> & -> & ->) (-> & -> & ->). done.
  - intros c db.
    destruct (run_cases c db)
      as [->|[->|[(r & -> & _)|(rid & data & cu & now & req & _ & _ & _ & ->)]]];
      done.
Qed.

(** X8. No sequence of calls deletes or moves a request, nor changes its
    [id], [training_id], [employee_empid], [manager_empid] or
    [request_date]: the row stored at a position stays at that position
    with these five columns as they were. *)
Theorem request_identity_kept cs db i r :
  training_requests db !! i = Some r →
  ∃ r', training_requests (run_all cs db) !! i = Some r'
        ∧ identity_columns r' = identity_columns r.
Proof.
  revert cs db i r.
  assert (∀ cs db, ∀ i r, training_requests db !! i = Some r →
            ∃ r', training_requests (run_all cs db) !! i = Some r'
                  ∧ identity_columns r' = identity_columns r) as H; [|by eauto].
  apply (run_all_relation (λ db db', ∀ i r,
           training_requests db !! i = Some r →
           ∃ r', training_requests db' !! i = Some r'
                 ∧ identity_columns r' = identity_columns r)).
  - eauto.
  - intros db1 db2 db3 H12 H23 i r Hr.
    destruct (H12 i r Hr) as (r2 & Hr2 & Heq2).
    destruct (H23 i r2 Hr2) as (r3 & Hr3 & Heq3).
    exists r3. split; [done|congruence].
  - intros c db i r Hr.
    destruct (run_cases c db)
      as [->|[->|[(r' & -> & _)|(rid & data & cu & now & req & _ & _ & _ & ->)]]].
    + eauto.
    + eauto.
    + exists r. split; [|done]. by apply lookup_app_l_Some.
    + exists (update_row (TrainingRequest.id req) data now r). split.
      * by rewrite responded_requests, list_lookup_fmap, Hr.
      * apply update_row_identity.
Qed.

Lemma request_identity_kept_witness :
  ∃ r', training_requests
          (run_all [RespondToRequest 1
                      {| update_status := "approved"; update_manager_notes := None |}
                      (as_user "m1") 400;
                    CreateRequest {| create_training_id := 6 |} (as_user "e1") 500]
                   db_listing) !! 0%nat = Some r'
        ∧ identity_columns r' = (1, 5, "e1", "m1", 100).
Proof.
  apply (request_identity_kept _ db_listing 0%nat
           (TrainingRequest.mk 1 5 "e1" "m1" 100 "pending" None None)).
  reflexivity.
Defined.

(** X9. Assignments are only ever appended, at most one per call: after
    any sequence of calls the assignment store is the old one followed by
    no more new rows than there were calls. *)
Theorem assignments_append_only cs db :
  ∃ added,
    training_assignments (run_all cs db) = training_assignments db ++ added
    ∧ (length added ≤ length cs)%nat.
Proof.
  revert db. induction cs as [|c cs IH]; intros db.
  { exists []. by rewrite app_nil_r. }
  simpl. destruct (IH (run c db)) as (added & -> & Hlen).
  destruct (run_cases c db)
    as [->|[->|[(r' & -> & _)|(rid & data & cu & now & req & _ & _ & _ & ->)]]].
  1-3: exists added; split; [done|lia].
  rewrite responded_assignments.
  destruct (decide (update_status data = "approved")).
  - eexists (_ :: added). rewrite <- app_assoc. split; [done|]. simpl. lia.
  - exists added. rewrite app_nil_r. split; [done|lia].
Qed.

(** ** Invariants kept by every call *)

Lemma run_sequence_ahead c db : sequence_ahead db → sequence_ahead (run c db).
Proof.
  unfold sequence_ahead. intros Hahead.
  destruct (run_cases c db)
    as [->|[->|[(r' & -> & _ & Hid & _)|(rid & data & cu & now & req & _ & _ & _ & ->)]]].
  - done.
  - intros r Hr. specialize (Hahead r Hr). simpl. lia.
  - intros r [Hr|Hr%list_elem_of_singleton]%elem_of_app; simpl.
    + specialize (Hahead r Hr). lia.
    + subst r. lia.
  - intros r. rewrite responded_requests.
    intros (r0 & -> & Hr0)%list_elem_of_fmap.
    rewrite update_row_id. by apply Hahead.
Qed.

(** X10. The keys of the request store are kept by every sequence of
    calls: when the [id]s are distinct and below the sequence, they stay
    distinct and below the sequence. *)
Theorem request_keys_kept cs db :
  primary_key db → sequence_ahead db →
  primary_key (run_all cs db) ∧ sequence_ahead (run_all cs db).
Proof.
  intros Hpk Hahead. split.
  - by apply run_all_primary_key.
  - revert Hahead. apply run_all_invariant. apply run_sequence_ahead.
Qed.

Lemma db_listing_keys : primary_key db_listing ∧ sequence_ahead db_listing.
Proof.
  split.
  - unfold primary_key.
    assert (TrainingRequest.id <$> training_requests db_listing = [1; 2; 3; 4]) as ->
      by reflexivity.
    apply (bool_decide_unpack _). by vm_compute.
  - intros r Hr. unfold db_listing in *. cbn [training_requests] in Hr.
    by repeat (apply elem_of_cons in Hr as [->|Hr]); [..|apply elem_of_nil in Hr].
Qed.

Lemma request_keys_kept_witness :
  let cs := [CreateRequest {| create_training_id := 6 |} (as_user "e1") 500;
             CreateRequest {| create_training_id := 6 |} (as_user "e2") 600;
             RespondToRequest 1
               {| update_status := "approved"; update_manager_notes := None |}
               (as_user "m1") 700] in
  primary_key (run_all cs db_listing) ∧ sequence_ahead (run_all cs db_listing).
Proof.
  intros cs. apply (request_keys_kept cs db_listing); apply db_listing_keys.
Defined.

Lemma requests_for_inserted db r training_id employee_empid :
  requests_for (inserted db r) training_id employee_empid
  = requests_for db training_id employee_empid
    ++ (if decide (TrainingRequest.training_id r = training_id
                   ∧ TrainingRequest.employee_empid r = employee_empid)
        then [r] else []).
Proof.
  unfold requests_for. cbn [training_requests inserted].
  by rewrite filter_app.
Qed.

Lemma requests_for_responded db req response_data now training_id employee_empid :
  requests_for (responded db req response_data now) training_id employee_empid
  = update_row (TrainingRequest.id req) response_data now
      <$> requests_for db training_id employee_empid.
Proof.
  unfold requests_for. rewrite responded_requests.
  apply filter_updated. intros r. unfold update_row. by destruct (decide _).
Qed.

(** X11. At most one request per (training, employee) pair: the table
    declares no such constraint, and every sequence of calls keeps it,
    since [create_training_request] inserts only for a pair that has no
    request and [respond_to_request] leaves both columns alone. *)
Theorem unique_pairs_kept cs db :
  unique_pairs db → unique_pairs (run_all cs db).
Proof.
  revert cs db. apply run_all_invariant. intros c db Huniq T E.
  destruct (run_cases c db)
    as [->|[->|[(r' & -> & _ & _ & _ & Hnone)
               |(rid & data & cu & now & req & _ & _ & _ & ->)]]].
  - apply Huniq.
  - apply Huniq.
  - rewrite requests_for_inserted, length_app.
    destruct (decide _) as [[<- <-]|_]; simpl.
    + rewrite Hnone. simpl. lia.
    + specialize (Huniq T E). lia.
  - rewrite requests_for_responded, length_fmap. apply Huniq.
Qed.

Lemma db_listing_unique_pairs : unique_pairs db_listing.
Proof.
  intros T E. unfold requests_for, db_listing. cbn [training_requests].
  rewrite !filter_cons, filter_nil. cbn.
  repeat (destruct (decide _) as [[? ?]|?]); simpl; try lia; congruence.
Qed.

Lemma unique_pairs_kept_witness :
  unique_pairs
    (run_all [CreateRequest {| create_training_id := 6 |} (as_user "e1") 500;
              CreateRequest {| create_training_id := 5 |} (as_user "e1") 600]
             db_listing).
Proof. apply unique_pairs_kept, db_listing_unique_pairs. Defined.

(** X12. Every assignment stands for an approved request: when each
    stored assignment carries the [training_id], [employee_empid] and
    [manager_empid] of a stored request with status ['approved'], this
    stays so through every sequence of calls. *)
Theorem assignments_backed_kept cs db :
  assignments_backed db → assignments_backed (run_all cs db).
Proof.
  revert cs db. apply run_all_invariant. intros c db Hbacked.
  destruct (run_cases c db)
    as [->|[->|[(r' & -> & _)
               |(rid & data & cu & now & req & _ & Hfound & Hpending & ->)]]].
  - done.
  - done.
  - intros a Ha. destruct (Hbacked a Ha) as (r & Hr & Hst & Hcopy).
    exists r. split_and!; [|done..]. cbn. apply elem_of_app. by left.
  - assert (req ∈ training_requests db ∧ TrainingRequest.id req = rid) as [Hreq Hid].
    { assert (req ∈ filter (λ r, TrainingRequest.id r = rid) (training_requests db))
        as Hin by (rewrite Hfound; by left).
      by apply list_elem_of_filter in Hin as [? ?]. }
    intros a. rewrite responded_assignments, responded_requests, Hid.
    intros [Ha|Ha]%elem_of_app.
    + destruct (Hbacked a Ha) as (r & Hr & Hst & Hcopy).
      exists r. split_and!; [|done..].
      apply list_elem_of_fmap. exists r. split; [|done]. symmetry.
      apply (update_row_not_pending (training_requests db) _ _ _ req); [done..|].
      by rewrite Hst.
    + destruct (decide (update_status data = "approved")) as [Hst|]; [|by apply elem_of_nil in Ha].
      apply list_elem_of_singleton in Ha as ->.
      exists (update_row rid data now req). split_and!.
      * by apply list_elem_of_fmap_2.
      * unfold update_row. by rewrite decide_True.
      * unfold update_row. rewrite decide_True by done. done.
Qed.

Lemma db_listing_assignments_backed : assignments_backed db_listing.
Proof.
  intros a Ha. unfold db_listing in Ha. cbn [training_assignments] in Ha.
  apply list_elem_of_singleton in Ha as ->.
  exists (TrainingRequest.mk 2 6 "e1" "m1" 300 "approved" (Some "ok") (Some 350)).
  split_and!; [|done..]. unfold db_listing. cbn [training_requests].
  rewrite !elem_of_cons. auto.
Qed.

Lemma assignments_backed_kept_witness :
  assignments_backed
    (run_all [RespondToRequest 1
                {| update_status := "approved"; update_manager_notes := None |}
                (as_user "m1") 400;
              RespondToRequest 3
                {| update_status := "rejected"; update_manager_notes := None |}
                (as_user "m1") 500]
             db_listing).
Proof. apply assignments_backed_kept, db_listing_assignments_backed. Defined.

(** ** A create that passes the checks returns *)



(** ** Round trips between the routes *)

(** X14. A created request is in the caller's own list: after a
    [create_training_request] that returned, [get_my_training_requests] by
    the same caller returns, and the returned list holds the very value
    the creation returned. *)
Theorem created_request_in_my_list request_data current_user now db resp db' :
  create_training_request request_data current_user now db = (inr resp, db') →
  ∃ requests,
    get_my_training_requests current_user db' = (inr requests, db')
    ∧ resp ∈ requests.
Proof.
  intros Hout.
  apply create_training_request_inr in Hout
    as (E & t & me & Hauth & _ & _ & _ & _ & -> & ->).
  eexists. split.
  { unfold get_my_training_requests, bind.
    rewrite (get_current_username_ok _ _ _ Hauth). reflexivity. }
  apply list_elem_of_fmap_2. rewrite order_by_desc_perm.
  apply list_elem_of_filter. split; [done|].
  cbn. apply elem_of_app. right. by left.
Qed.

Lemma created_request_in_my_list_witness :
  ∃ requests,
    get_my_training_requests (as_user "e1") db1 = (inr requests, db1)
    ∧ selectinload db1 req1 ∈ requests.
Proof.
  apply (created_request_in_my_list {| create_training_id := 5 |} (as_user "e1") 100 db0).
  reflexivity.
Defined.

(** X15. A created request reaches its manager: after a
    [create_training_request] that returned, in a database that satisfies
    the foreign key to [users], [get_pending_requests] called by the
    manager stored in the request returns a list that holds the request,
    with the [employee_name] of the requester's directory row. *)
Theorem created_request_in_pending_list
    request_data current_user now db resp db' manager_user :
  create_training_request request_data current_user now db = (inr resp, db') →
  employee_foreign_key db' →
  authenticated manager_user (TrainingRequest.manager_empid (loaded_request resp)) →
  ∃ requests listed me,
    get_pending_requests manager_user db' = (inr requests, db')
    ∧ listed ∈ requests
    ∧ request_of_response listed = loaded_request resp
    ∧ directory_rows db (TrainingRequest.employee_empid (loaded_request resp)) = [me]
    ∧ Employee.name (TrainingRequestResponse.employee listed)
      = ManagerEmployee.employee_name me.
Proof.
  intros Hout Hfk Hmanager.
  apply create_training_request_inr in Hout
    as (E & t & me & Hauth & _ & Hdir & _ & _ & -> & ->).
  set (T := create_training_id request_data) in *.
  set (r := new_request db T E me now) in *.
  cbn [loaded_request selectinload] in *.
  destruct (list_pending_requests manager_user _ (inserted db r) Hmanager Hfk)
    as (requests & Hget & Hpairs & _).
  assert ((r, ManagerEmployee.employee_name me)
          ∈ (λ resp, (request_of_response resp,
                      Employee.name (TrainingRequestResponse.employee resp)))
              <$> requests) as Hin.
  { rewrite Hpairs. apply list_elem_of_bind. exists r. split.
    - change (directory_rows (inserted db r)) with (directory_rows db).
      change (TrainingRequest.employee_empid r) with E. rewrite Hdir.
      rewrite bind_singleton. by left.
    - apply list_elem_of_filter. split; [done|].
      cbn. apply elem_of_app. right. by left. }
  apply list_elem_of_fmap in Hin as (listed & Hpair & Hlisted).
  apply pair_equal_spec in Hpair as [Hreq Hname].
  exists requests, listed, me. by split_and!.
Qed.

Lemma created_request_in_pending_list_witness :
  ∃ requests listed me,
    get_pending_requests (as_user "m1") db1 = (inr requests, db1)
    ∧ listed ∈ requests
    ∧ request_of_response listed = loaded_request (selectinload db1 req1)
    ∧ directory_rows db0
        (TrainingRequest.employee_empid (loaded_request (selectinload db1 req1))) = [me]
    ∧ Employee.name (TrainingRequestResponse.employee listed)
      = ManagerEmployee.employee_name me.
Proof.
  apply (created_request_in_pending_list
           {| create_training_id := 5 |} (as_user "e1") 100 db0
           (selectinload db1 req1) db1 (as_user "m1")).
  - reflexivity.
  - intros r Hr. exists (User.mk "e1").
    apply list_elem_of_singleton in Hr as ->. split; [by left|done].
  - by apply authenticated_as_user.
Defined.

Lemma for_each_inr {A B} (body : A → Exception + B) rows xs :
  for_each body rows = inr xs →
  Forall2 (λ row x, body row = inr x) rows xs.
Proof.
  revert xs. induction rows as [|row rows IH]; intros xs; simpl.
  - intros [= <-]. constructor.
  - destruct (body row) as [e|x] eqn:Hrow; [done|].
    destruct (for_each body rows) as [e|xs'] eqn:Hrows; [done|].
    intros [= <-]. constructor; [done|]. by apply IH.
Qed.

(** What a returned list of [get_pending_requests] is made of. *)
Lemma get_pending_requests_inr current_user db requests db' :
  get_pending_requests current_user db = (inr requests, db') →
  ∃ M, authenticated current_user M
       ∧ ∀ listed, listed ∈ requests →
           request_of_response listed ∈ training_requests db
           ∧ TrainingRequestResponse.manager_empid listed = M
           ∧ TrainingRequestResponse.status listed = "pending".
Proof.
  intros Hout.
  destruct (authenticated_or_not current_user) as [[M Hauth]|Hno].
  2:{ unfold get_pending_requests, bind in Hout.
      destruct (get_current_username current_user db) as [r db1] eqn:Hu.
      destruct (get_current_username_inv _ _ _ _ Hu) as [-> [->|(M & -> & Hauth)]];
        [done|by destruct (Hno M)]. }
  exists M. split; [done|].
  unfold get_pending_requests, bind in Hout.
  rewrite (get_current_username_ok _ _ _ Hauth) in Hout.
  unfold execute in Hout. cbn [fst snd] in Hout.
  destruct (for_each (request_dict db) (pending_rows M db)) as [e|xs] eqn:Hfor;
    [done|].
  cbn in Hout. injection Hout as <- <-.
  apply for_each_inr in Hfor.
  intros listed Hlisted.
  apply list_elem_of_lookup in Hlisted as [i Hi].
  destruct (Forall2_lookup_r _ _ _ _ _ Hfor Hi) as (row & Hrow & Hdict).
  apply request_dict_inr in Hdict as (Hreq & _ & _).
  apply list_elem_of_lookup_2 in Hrow.
  rewrite pending_rows_joined in Hrow.
  apply list_elem_of_fmap in Hrow as ([r me] & -> & Hjoined).
  apply elem_of_joined in Hjoined as (Hr & _).
  apply list_elem_of_filter in Hr as [[Hm Hst] Hr].
  cbn in Hreq. rewrite Hreq. split; [done|].
  assert (TrainingRequestResponse.manager_empid listed
          = TrainingRequest.manager_empid (request_of_response listed)) as -> by done.
  assert (TrainingRequestResponse.status listed
          = TrainingRequest.status (request_of_response listed)) as -> by done.
  by rewrite Hreq.
Qed.

(** X16. An answered request leaves the pending lists: after a
    [respond_to_request] by the authenticated stored manager on a pending
    request, with any submitted status other than ['pending'], no list
    that [get_pending_requests] returns, for any caller, holds a result
    with the [id] of that request. *)
Theorem answered_request_not_pending req response_data current_user now db :
  primary_key db →
  req ∈ training_requests db →
  TrainingRequest.status req = "pending" →
  authenticated current_user (TrainingRequest.manager_empid req) →
  update_status response_data ≠ "pending" →
  let db' :=
    (respond_to_request (TrainingRequest.id req) response_data current_user now db).2 in
  ∀ caller requests db'',
    get_pending_requests caller db' = (inr requests, db'') →
    ∀ listed, listed ∈ requests →
      TrainingRequestResponse.id listed ≠ TrainingRequest.id req.
Proof.
  intros Hpk Hin Hpending Hauth Hst db' caller requests db'' Hget listed Hlisted Hid.
  pose proof (filter_primary_key _ _ Hpk Hin) as Hfound.
  subst db'. rewrite (respond_passes _ _ _ _ _ _ Hauth Hfound Hpending) in Hget.
  cbn [snd] in Hget.
  apply get_pending_requests_inr in Hget as (M & _ & Hall).
  destruct (Hall listed Hlisted) as (Hstored & _ & Hstatus).
  assert (request_of_response listed
          ∈ filter (λ r, TrainingRequest.id r = TrainingRequest.id req)
                   (training_requests (responded db req response_data now))) as Hr
    by (by apply list_elem_of_filter).
  rewrite (responded_found _ _ _ _ Hfound) in Hr.
  apply list_elem_of_singleton in Hr.
  assert (TrainingRequestResponse.status listed
          = TrainingRequest.status (request_of_response listed)) as Heq by done.
  rewrite Hr in Heq. cbn in Heq. congruence.
Qed.

Lemma answered_request_not_pending_witness :
  ∃ requests db'',
    get_pending_requests (as_user "m1")
      (respond_to_request 1
         {| update_status := "rejected"; update_manager_notes := None |}
         (as_user "m1") 400 db_listing).2
    = (inr requests, db'')
    ∧ TrainingRequestResponse.id <$> requests = [3]
    ∧ Forall (λ listed, TrainingRequestResponse.id listed ≠ 1) requests.
Proof.
  assert (primary_key db_listing) as Hpk by apply db_listing_keys.
  assert (req1 ∈ training_requests db_listing) as Hin
    by (by apply (bool_decide_unpack _)).
  assert (authenticated (as_user "m1") (TrainingRequest.manager_empid req1)) as Hauth
    by (by apply authenticated_as_user).
  pose proof (answered_request_not_pending req1
                {| update_status := "rejected"; update_manager_notes := None |}
                (as_user "m1") 400 db_listing Hpk Hin eq_refl Hauth
                ltac:(done) (as_user "m1")) as Hnot.
  cbv zeta in Hnot.
  eexists _, _. split; [reflexivity|]. split; [reflexivity|].
  apply Forall_forall. intros listed Hlisted.
  eapply Hnot; [reflexivity|exact Hlisted].
Defined.

(** ** What the pending list is made of *)

(** X17. In a database that satisfies the foreign key from
    [employee_empid] to [users], [get_pending_requests] called by M returns
    one result for each pair of a stored request with [manager_empid] M and
    status ['pending'] and a directory row of that request's employee, and
    nothing else: a request is listed once per directory row of its
    employee, so not at all when there is none.  The results carry the
    columns of the request and the [employee_name] of the directory row,
    latest [request_date] first, and the database is left as it was. *)
Theorem pending_list_contents current_user M db :
  authenticated current_user M →
  employee_foreign_key db →
  ∃ requests,
    get_pending_requests current_user db = (inr requests, db)
    ∧ (λ resp, (request_of_response resp,
                Employee.name (TrainingRequestResponse.employee resp))) <$> requests
      ≡ₚ (r ← filter (λ r, TrainingRequest.manager_empid r = M
                           ∧ TrainingRequest.status r = "pending")
                     (training_requests db);
          me ← directory_rows db (TrainingRequest.employee_empid r);
          [(r, ManagerEmployee.employee_name me)])
    ∧ StronglySorted
        (λ a b, TrainingRequestResponse.request_date b
                ≤ TrainingRequestResponse.request_date a)
        requests.
Proof.
  intros Hauth Hfk.
  destruct (list_pending_requests current_user M db Hauth Hfk)
    as (requests & Hget & Hpairs & Hsorted & _).
  by exists requests.
Qed.

(** [db_listing] with a second directory row for [e2], under another
    manager. *)
Lemma pending_list_contents_witness :
  let db :=
    mkDB (training_details db_listing) (users db_listing)
         (manager_employee db_listing ++ [ManagerEmployee.mk "m2" "e2" "Edward Two"])
         (training_requests db_listing) (training_assignments db_listing) 5 in
  ∃ requests,
    get_pending_requests (as_user "m1") db = (inr requests, db)
    ∧ (λ resp, (request_of_response resp,
                Employee.name (TrainingRequestResponse.employee resp))) <$> requests
      ≡ₚ (r ← filter (λ r, TrainingRequest.manager_empid r = "m1"
                           ∧ TrainingRequest.status r = "pending")
                     (training_requests db);
          me ← directory_rows db (TrainingRequest.employee_empid r);
          [(r, ManagerEmployee.employee_name me)])
    ∧ StronglySorted
        (λ a b, TrainingRequestResponse.request_date b
                ≤ TrainingRequestResponse.request_date a)
        requests.
Proof.
  intros db.
  apply (pending_list_contents (as_user "m1") "m1" db).
  - by apply authenticated_as_user.
  - exact db_listing_foreign_key.
Defined.

(** In that store the request of [e2] is listed twice, once per
    directory row. *)
Example pending_list_repeats :
  match (get_pending_requests (as_user "m1")
           (mkDB (training_details db_listing) (users db_listing)
                 (manager_employee db_listing
                    ++ [ManagerEmployee.mk "m2" "e2" "Edward Two"])
                 (training_requests db_listing)
                 (training_assignments db_listing) 5)).1 with
  | inr rows =>
      Some (TrainingRequestResponse.id <$> rows)
  | inl _ => None
  end = Some [3; 3; 1].
Proof. reflexivity. Qed.

(** * The migration script *)

Section migration.

Import Migration.

Variable refuses : Statement → Catalog → option string.

Lemma select_indexnames_tables tabs cat :
  select_indexnames (mkCatalog tabs (pg_indexes cat)) = select_indexnames cat.
Proof. reflexivity. Qed.

Lemma select_indexnames_alter table c cat :
  select_indexnames (apply_statement (AlterTableAddColumn table c) cat)
  = select_indexnames cat.
Proof. reflexivity. Qed.

(** One step of running the script by hand: the next guard or the next
    answer of the server. *)
Ltac script_step :=
  first
    [ rewrite select_indexnames_alter
    | match goal with
      | |- context [refuses ?stmt ?c] => destruct (refuses stmt c) eqn:?
      end
    | match goal with
      | |- context [decide ?P] => destruct (decide P)
      end ].

(** The script sends the statements of [plan], in that order, and stops
    at the first one the server refuses; the transaction then leaves the
    catalog as it was. *)
Lemma create_training_requests_table_plan cat out :
  ∃ out',
    create_training_requests_table refuses cat out
    = match execute_all refuses (plan cat) cat with
      | inl e => (inl e, cat, out')
      | inr cat' => (inr (), cat', out')
      end.
Proof.
  unfold create_training_requests_table, try_except, begin, plan, unless_in,
         add_manager_notes, add_response_date,
         bind, print, query, ret, execute, raise.
  destruct (select_table cat) as [t|] eqn:Htable;
    repeat (cbn beta iota zeta delta [execute_all app]; script_step);
    cbn beta iota zeta delta [execute_all app];
    eexists; reflexivity.
Qed.

(** What an accepted run leaves is the catalog with the statements of
    the plan applied in order. *)
Lemma execute_all_inr stmts cat cat' :
  execute_all refuses stmts cat = inr cat' →
  cat' = foldl (λ c stmt, apply_statement stmt c) cat stmts.
Proof.
  revert cat. induction stmts as [|stmt stmts IH]; intros cat; simpl.
  - by intros [= <-].
  - destruct (refuses stmt cat); [done|]. apply IH.
Qed.

Lemma create_training_requests_table_inr cat out cat' out' :
  create_training_requests_table refuses cat out = (inr (), cat', out') →
  cat' = foldl (λ c stmt, apply_statement stmt c) cat (plan cat).
Proof.
  intros Hrun. destruct (create_training_requests_table_plan cat out) as [out'' Hplan].
  rewrite Hrun in Hplan.
  destruct (execute_all refuses (plan cat) cat) as [e|cat''] eqn:Hexec; [done|].
  injection Hplan as -> _. by apply execute_all_inr.
Qed.

Lemma create_training_requests_table_inl cat out e cat' out' :
  create_training_requests_table refuses cat out = (inl e, cat', out') →
  cat' = cat.
Proof.
  intros Hrun. destruct (create_training_requests_table_plan cat out) as [out'' Hplan].
  rewrite Hrun in Hplan.
  destruct (execute_all refuses (plan cat) cat) as [e'|cat''] eqn:Hexec; [|done].
  by injection Hplan as _ -> _.
Qed.

End migration.

Section catalog.

Import Migration.

(** How the three queries see an accepted statement. *)
Lemma select_table_add_column c cat :
  select_table (apply_statement (AlterTableAddColumn "training_requests" c) cat)
  = (λ t, mkTable (columns t ++ [c]) (primary_key t) (foreign_keys t))
      <$> select_table cat.
Proof. unfold select_table. cbn. by rewrite lookup_alter_eq. Qed.

Lemma select_column_names_add_column c cat :
  is_Some (select_table cat) →
  select_column_names (apply_statement (AlterTableAddColumn "training_requests" c) cat)
  = select_column_names cat ++ [column_name c].
Proof.
  intros [t Ht]. unfold select_column_names, select_table in *. cbn.
  rewrite lookup_alter_eq, Ht. cbn. by rewrite fmap_app.
Qed.

Lemma select_indexnames_create_index name column cat :
  like "idx_training_requests_%" name = true →
  select_indexnames (apply_statement (CreateIndex name "training_requests" column) cat)
  = select_indexnames cat ++ [name].
Proof.
  intros Hlike. unfold select_indexnames. cbn.
  rewrite filter_app, fmap_app. f_equal.
  by rewrite filter_cons_True.
Qed.

Lemma same_tables cat cat' :
  tables cat' = tables cat →
  select_table cat' = select_table cat
  ∧ select_column_names cat' = select_column_names cat.
Proof. unfold select_table, select_column_names. by intros ->. Qed.

(** An [ALTER TABLE] sent unless the column is there. *)
Lemma unless_in_add_column stmt name definition names cat :
  stmt = AlterTableAddColumn "training_requests" (mkColumn name definition) →
  is_Some (select_table cat) →
  let cat' :=
    foldl (λ c stmt, apply_statement stmt c) cat (unless_in name names stmt) in
  is_Some (select_table cat')
  ∧ select_column_names cat' = select_column_names cat ++ missing [name] names
  ∧ pg_indexes cat' = pg_indexes cat.
Proof.
  intros -> Htable. unfold unless_in, missing. rewrite filter_cons, filter_nil.
  destruct (decide (name ∉ names)); cbn [foldl].
  - split_and!.
    + rewrite select_table_add_column. by apply fmap_is_Some.
    + by rewrite select_column_names_add_column.
    + done.
  - by rewrite app_nil_r.
Qed.

(** A [CREATE INDEX] sent unless the name is there. *)
Lemma unless_in_create_index stmt name column names cat :
  stmt = CreateIndex name "training_requests" column →
  like "idx_training_requests_%" name = true →
  let cat' :=
    foldl (λ c stmt, apply_statement stmt c) cat (unless_in name names stmt) in
  tables cat' = tables cat
  ∧ select_indexnames cat' = select_indexnames cat ++ missing [name] names
  ∧ pg_indexes cat `prefix_of` pg_indexes cat'.
Proof.
  intros -> Hlike. unfold unless_in, missing. rewrite filter_cons, filter_nil.
  destruct (decide (name ∉ names)); cbn [foldl].
  - split_and!; [done| |].
    + by rewrite select_indexnames_create_index.
    + by eexists.
  - by rewrite app_nil_r.
Qed.

(** The plan for a table that exists adds the missing columns and index
    names, in the order of the script, and nothing else. *)
Lemma plan_existing cat :
  is_Some (select_table cat) →
  let cat' := foldl (λ c stmt, apply_statement stmt c) cat (plan cat) in
  is_Some (select_table cat')
  ∧ select_column_names cat'
    = select_column_names cat
      ++ missing ["manager_notes"; "response_date"] (select_column_names cat)
  ∧ select_indexnames cat'
    = select_indexnames cat
      ++ missing ["idx_training_requests_employee"; "idx_training_requests_manager";
                  "idx_training_requests_status"]
                 (select_indexnames cat)
  ∧ pg_indexes cat `prefix_of` pg_indexes cat'.
Proof.
  intros Htable. unfold plan. destruct Htable as [t Ht]. rewrite Ht.
  assert (is_Some (select_table cat)) as Htable by (by rewrite Ht).
  rewrite !foldl_app.
  set (names := select_column_names cat). set (indexes := select_indexnames cat).
  destruct (unless_in_add_column add_manager_notes "manager_notes" "TEXT" names cat
              eq_refl Htable) as (Ht1 & Hc1 & Hi1).
  set (cat1 := foldl _ cat (unless_in "manager_notes" names add_manager_notes)) in *.
  destruct (unless_in_add_column add_response_date "response_date" "TIMESTAMP" names
              cat1 eq_refl Ht1) as (Ht2 & Hc2 & Hi2).
  set (cat2 := foldl _ cat1 (unless_in "response_date" names add_response_date)) in *.
  destruct (unless_in_create_index idx_employee "idx_training_requests_employee"
              "employee_empid" indexes cat2 eq_refl eq_refl) as (Ht3 & Hn3 & Hp3).
  set (cat3 := foldl _ cat2 (unless_in _ indexes idx_employee)) in *.
  destruct (unless_in_create_index idx_manager "idx_training_requests_manager"
              "manager_empid" indexes cat3 eq_refl eq_refl) as (Ht4 & Hn4 & Hp4).
  set (cat4 := foldl _ cat3 (unless_in _ indexes idx_manager)) in *.
  destruct (unless_in_create_index idx_status "idx_training_requests_status"
              "status" indexes cat4 eq_refl eq_refl) as (Ht5 & Hn5 & Hp5).
  set (cat5 := foldl _ cat4 (unless_in _ indexes idx_status)) in *.
  destruct (same_tables cat2 cat3 Ht3) as [Hs3 Hc3].
  destruct (same_tables cat3 cat4 Ht4) as [Hs4 Hc4].
  destruct (same_tables cat4 cat5 Ht5) as [Hs5 Hc5].
  assert (select_indexnames cat2 = indexes) as Hn2.
  { unfold select_indexnames. by rewrite Hi2, Hi1. }
  split_and!.
  - by rewrite Hs5, Hs4, Hs3.
  - rewrite Hc5, Hc4, Hc3, Hc2, Hc1, <- app_assoc. f_equal.
    unfold missing. rewrite !filter_cons, !filter_nil.
    by repeat (destruct (decide _)).
  - rewrite Hn5, Hn4, Hn3, Hn2, <- !app_assoc. f_equal.
    unfold missing. rewrite !filter_cons, !filter_nil.
    by repeat (destruct (decide _)).
  - rewrite <- Hi1, <- Hi2. by repeat (etrans; [eassumption|]).
Qed.

(** The plan for a missing table. *)
Lemma plan_fresh cat :
  select_table cat = None →
  foldl (λ c stmt, apply_statement stmt c) cat (plan cat)
  = mkCatalog
      (<["training_requests" := training_requests]> (tables cat))
      (pg_indexes cat ++
         [mkIndex "training_requests_pkey" "training_requests" "id";
          mkIndex "idx_training_requests_employee" "training_requests" "employee_empid";
          mkIndex "idx_training_requests_manager" "training_requests" "manager_empid";
          mkIndex "idx_training_requests_status" "training_requests" "status"]).
Proof.
  intros Htable. unfold plan. rewrite Htable. cbn. by rewrite <- !app_assoc.
Qed.

End catalog.

Section extends.

Import Migration.

Lemma extends_refl cat : extends cat cat.
Proof.
  split_and!; [|done..]. intros name t Ht. exists t. by split_and!.
Qed.

Lemma extends_trans cat1 cat2 cat3 :
  extends cat1 cat2 → extends cat2 cat3 → extends cat1 cat3.
Proof.
  intros (Ht12 & Ho12 & Hi12) (Ht23 & Ho23 & Hi23). split_and!.
  - intros name t Ht.
    destruct (Ht12 name t Ht) as (t2 & Ht2 & Hc2 & Hp2 & Hf2 & Hs2).
    destruct (Ht23 name t2 Ht2) as (t3 & Ht3 & Hc3 & Hp3 & Hf3 & Hs3).
    exists t3. split_and!; [done|by etrans|congruence..|].
    intros Hne. rewrite (Hs3 Hne). by apply Hs2.
  - intros name Hne. rewrite (Ho23 _ Hne). by apply Ho12.
  - by etrans.
Qed.

Lemma extends_only_adds stmt cat :
  only_adds stmt → extends cat (apply_statement stmt cat).
Proof.
  destruct stmt as [table c|name table column|name t]; cbn [only_adds]; [|intros _|done].
  - intros ->. split_and!; cbn.
    + intros name t Ht. destruct (decide (name = "training_requests")) as [->|Hne].
      * eexists. rewrite lookup_alter_eq, Ht. cbn.
        split_and!; [done|by eexists|done..].
      * exists t. rewrite lookup_alter_ne by done. by split_and!.
    + intros name Hne. by rewrite lookup_alter_ne.
    + done.
  - split_and!; cbn; [|done|by eexists].
    intros name' t Ht. exists t. by split_and!.
Qed.

Lemma extends_all_only_add stmts cat :
  Forall only_adds stmts →
  extends cat (foldl (λ c stmt, apply_statement stmt c) cat stmts).
Proof.
  intros Hall. revert cat. induction Hall as [|stmt stmts Hstmt _ IH]; intros cat.
  - apply extends_refl.
  - cbn. eapply extends_trans; [by apply extends_only_adds|apply IH].
Qed.

Lemma extends_create_table cat :
  select_table cat = None →
  extends cat (apply_statement (CreateTable "training_requests" training_requests) cat).
Proof.
  unfold select_table. intros Hnone. split_and!; cbn.
  - intros name t Ht. exists t.
    assert (name ≠ "training_requests") as Hne by (intros ->; congruence).
    rewrite lookup_insert_ne by done. by split_and!.
  - intros name Hne. by rewrite lookup_insert_ne.
  - by eexists.
Qed.

Lemma extends_plan cat :
  extends cat (foldl (λ c stmt, apply_statement stmt c) cat (plan cat)).
Proof.
  unfold plan. destruct (select_table cat) as [t|] eqn:Htable.
  - apply extends_all_only_add. unfold unless_in.
    repeat (destruct (decide _)); repeat constructor.
  - cbn [foldl]. eapply extends_trans; [by apply extends_create_table|].
    apply (extends_all_only_add [idx_employee; idx_manager; idx_status]).
    repeat constructor.
Qed.

Lemma elem_of_missing name (names old : list string) :
  name ∈ names → name ∈ old ++ missing names old.
Proof.
  intros Hin. apply elem_of_app.
  destruct (decide (name ∈ old)); [by left|right].
  by apply list_elem_of_filter.
Qed.

Lemma plan_up_to_date cat :
  up_to_date (foldl (λ c stmt, apply_statement stmt c) cat (plan cat)).
Proof.
  destruct (select_table cat) as [t|] eqn:Htable.
  - destruct (plan_existing cat) as (Ht & Hc & Hi & _); [by rewrite Htable|].
    unfold up_to_date. rewrite Hc, Hi.
    split_and!; [done|apply elem_of_missing..];
      solve [repeat first [by left|right]].
  - rewrite (plan_fresh _ Htable). unfold up_to_date.
    assert (select_table
              (mkCatalog (<["training_requests" := training_requests]> (tables cat))
                         (pg_indexes cat ++
                            [mkIndex "training_requests_pkey" "training_requests" "id";
                             mkIndex "idx_training_requests_employee"
                                     "training_requests" "employee_empid";
                             mkIndex "idx_training_requests_manager"
                                     "training_requests" "manager_empid";
                             mkIndex "idx_training_requests_status"
                                     "training_requests" "status"]))
            = Some training_requests) as Hsel
      by (unfold select_table; cbn; apply lookup_insert_eq).
    split_and!.
    + by rewrite Hsel.
    + unfold select_column_names. unfold select_table in Hsel. rewrite Hsel.
      cbn. solve [repeat first [by left|right]].
    + unfold select_column_names. unfold select_table in Hsel. rewrite Hsel.
      cbn. solve [repeat first [by left|right]].
    + unfold select_indexnames. cbn [pg_indexes].
      rewrite filter_app, fmap_app. apply elem_of_app. right.
      rewrite !filter_cons, filter_nil. cbn. solve [repeat first [by left|right]].
    + unfold select_indexnames. cbn [pg_indexes].
      rewrite filter_app, fmap_app. apply elem_of_app. right.
      rewrite !filter_cons, filter_nil. cbn. solve [repeat first [by left|right]].
    + unfold select_indexnames. cbn [pg_indexes].
      rewrite filter_app, fmap_app. apply elem_of_app. right.
      rewrite !filter_cons, filter_nil. cbn. solve [repeat first [by left|right]].
Qed.

End extends.

Section migration_properties.

Import Migration.

Variable refuses : Statement → Catalog → option string.

(** On a database that is up to date the script sends nothing. *)
Lemma create_training_requests_table_noop cat out :
  up_to_date cat →
  create_training_requests_table refuses cat out
  = (inr (), cat, out ++ up_to_date_lines).
Proof.
  intros ([t Ht] & Hm & Hr & He & Hma & Hs).
  unfold create_training_requests_table, try_except, begin, bind, query, print, ret.
  rewrite Ht.
  rewrite !decide_False by (intros Hnot; by apply Hnot).
  unfold up_to_date_lines. by rewrite <- app_assoc.
Qed.


(** X19. On a database that is up to date the script changes nothing and
    cannot fail: it sends no statement, so it returns on every server,
    also one that would refuse every statement, leaves the catalog as it
    is and prints its two lines. *)
Theorem migration_noop_when_up_to_date cat out :
  up_to_date cat →
  create_training_requests_table refuses cat out
  = (inr (), cat, out ++ up_to_date_lines).
Proof.
  apply create_training_requests_table_noop.
Qed.

(** X20. The migration can be run again: after a [main] that returned, a
    second [main] returns, leaves the catalog as the first one left it,
    and prints the start line, the two lines of an up-to-date database and
    the completion line. *)
Theorem migration_idempotent cat out cat' out' :
  main refuses cat out = (inr (), cat', out') →
  ∀ out2,
    main refuses cat' out2
    = (inr (), cat',
       out2 ++ ["🚀 Starting database migration for training_requests table..."]
            ++ up_to_date_lines
            ++ ["🎉 Migration completed successfully!"]).
Proof.
  intros Hmain out2.
  assert (up_to_date cat') as Hup.
  { unfold main, bind in Hmain. unfold print at 1 in Hmain.
    destruct (create_training_requests_table refuses cat _) as [[[e|[]] cat1] out1]
      eqn:Hrun; [done|].
    unfold print in Hmain. injection Hmain as <- _.
    rewrite (create_training_requests_table_inr _ _ _ _ _ Hrun).
    apply plan_up_to_date. }
  unfold main, bind. unfold print at 1.
  rewrite create_training_requests_table_noop by done.
  unfold print. by rewrite <- !app_assoc.
Qed.

(** X21. The script never drops or rewrites anything: however a run
    ends, every table that was in the catalog is still there with the same
    key and references and its old columns first, every table other than
    [training_requests] is as it was, and the old indexes are still there,
    first.  A run that raises leaves the whole catalog as it was. *)
Theorem migration_only_adds cat out r cat' out' :
  create_training_requests_table refuses cat out = (r, cat', out') →
  extends cat cat' ∧ (∀ e, r = inl e → cat' = cat).
Proof.
  intros Hrun. destruct r as [e|[]].
  - rewrite (create_training_requests_table_inl _ _ _ _ _ _ Hrun).
    split; [apply extends_refl|done].
  - rewrite (create_training_requests_table_inr _ _ _ _ _ Hrun).
    split; [apply extends_plan|done].
Qed.

(** X22. On a database without the table, a run that returns has created
    it with the eight columns, the primary key and the three references of
    the [CREATE TABLE] statement, and its catalog of indexes is the old one
    followed by the index of the primary key and the three indexes of the
    script. *)
Theorem migration_creates_table cat out cat' out' :
  select_table cat = None →
  create_training_requests_table refuses cat out = (inr (), cat', out') →
  tables cat' = <["training_requests" := training_requests]> (tables cat)
  ∧ pg_indexes cat'
    = pg_indexes cat ++
        [mkIndex "training_requests_pkey" "training_requests" "id";
         mkIndex "idx_training_requests_employee" "training_requests" "employee_empid";
         mkIndex "idx_training_requests_manager" "training_requests" "manager_empid";
         mkIndex "idx_training_requests_status" "training_requests" "status"].
Proof.
  intros Htable Hrun. rewrite (create_training_requests_table_inr _ _ _ _ _ Hrun).
  by rewrite (plan_fresh _ Htable).
Qed.

(** X23. On a database that has the table, a run that returns has added
    exactly what was missing, once: the column names are the old ones
    followed by those of [manager_notes], [response_date] that were not
    among them, and the names of the indexes on the table that match the
    pattern of the script are the old ones followed by those of the three
    that were not among them. *)
Theorem migration_repairs_table cat out cat' out' :
  is_Some (select_table cat) →
  create_training_requests_table refuses cat out = (inr (), cat', out') →
  select_column_names cat'
  = select_column_names cat
    ++ missing ["manager_notes"; "response_date"] (select_column_names cat)
  ∧ select_indexnames cat'
    = select_indexnames cat
      ++ missing ["idx_training_requests_employee"; "idx_training_requests_manager";
                  "idx_training_requests_status"]
                 (select_indexnames cat).
Proof.
  intros Htable Hrun. rewrite (create_training_requests_table_inr _ _ _ _ _ Hrun).
  by destruct (plan_existing cat Htable) as (_ & Hc & Hi & _).
Qed.

End migration_properties.

Section migration_examples.

Import Migration.

Lemma migrated_run cat :
  create_training_requests_table accepts_all cat []
  = (inr (), migrated cat, (create_training_requests_table accepts_all cat []).2).
Proof.
  unfold migrated.
  destruct (create_training_requests_table_plan accepts_all cat []) as [out' Hplan].
  assert (∀ stmts c, ∃ c', execute_all accepts_all stmts c = inr c') as Hall.
  { intros stmts. induction stmts as [|stmt stmts IH]; intros c; cbn; eauto. }
  destruct (Hall (plan cat) cat) as [cat' Hexec]. rewrite Hexec in Hplan.
  by rewrite Hplan.
Qed.

Lemma migrated_up_to_date cat : up_to_date (migrated cat).
Proof.
  rewrite (create_training_requests_table_inr _ _ _ _ _ (migrated_run cat)).
  apply plan_up_to_date.
Qed.


Lemma migration_noop_when_up_to_date_witness :
  create_training_requests_table refuses_all (migrated empty_catalog) []
  = (inr (), migrated empty_catalog, [] ++ up_to_date_lines).
Proof.
  apply (migration_noop_when_up_to_date refuses_all (migrated empty_catalog) []).
  apply migrated_up_to_date.
Defined.

Lemma main_migrated cat :
  main accepts_all cat []
  = (inr (), migrated cat,
     (create_training_requests_table accepts_all cat
        ["🚀 Starting database migration for training_requests table..."]).2
     ++ ["🎉 Migration completed successfully!"]).
Proof.
  unfold main, bind. unfold print at 1. cbn [app].
  destruct (create_training_requests_table_plan accepts_all cat
              ["🚀 Starting database migration for training_requests table..."])
    as [out' Hplan].
  pose proof (migrated_run cat) as Hrun.
  destruct (create_training_requests_table_plan accepts_all cat []) as [out'' Hplan'].
  rewrite Hplan' in Hrun.
  destruct (execute_all accepts_all (plan cat) cat) as [e|cat']; [done|].
  injection Hrun as Hcat. rewrite Hplan. unfold print. cbn [snd]. by rewrite Hcat.
Qed.

Lemma migration_idempotent_witness :
  main accepts_all (migrated empty_catalog) []
  = (inr (), migrated empty_catalog,
     [] ++ ["🚀 Starting database migration for training_requests table..."]
        ++ up_to_date_lines
        ++ ["🎉 Migration completed successfully!"]).
Proof.
  eapply (migration_idempotent accepts_all empty_catalog []).
  apply main_migrated.
Defined.

Lemma migration_only_adds_witness :
  extends old_catalog (migrated old_catalog)
  ∧ (create_training_requests_table refuses_status_index old_catalog []).1.2
    = old_catalog.
Proof.
  split.
  - eapply (migration_only_adds accepts_all old_catalog []). apply migrated_run.
  - eapply (migration_only_adds refuses_status_index old_catalog []
              (inl "permission denied")); reflexivity.
Defined.

(** The failed run of the witness: the two columns and two indexes it had
    added are rolled back, and the last line printed is the error. *)
Example migration_rolled_back :
  create_training_requests_table refuses_status_index old_catalog []
  = (inl "permission denied", old_catalog,
     ["✅ training_requests table exists, checking for missing columns...";
      "🔧 Adding missing manager_notes column...";
      "✅ Added manager_notes column!";
      "🔧 Adding missing response_date column...";
      "✅ Added response_date column!";
      "✅ Created employee index!";
      "❌ Error updating training_requests table: permission denied"]).
Proof. reflexivity. Qed.

Lemma migration_creates_table_witness :
  tables (migrated empty_catalog) = <["training_requests" := training_requests]> ∅
  ∧ pg_indexes (migrated empty_catalog)
    = [] ++
        [mkIndex "training_requests_pkey" "training_requests" "id";
         mkIndex "idx_training_requests_employee" "training_requests" "employee_empid";
         mkIndex "idx_training_requests_manager" "training_requests" "manager_empid";
         mkIndex "idx_training_requests_status" "training_requests" "status"].
Proof.
  eapply (migration_creates_table accepts_all empty_catalog []).
  - reflexivity.
  - apply migrated_run.
Defined.

Lemma migration_repairs_table_witness :
  select_column_names (migrated old_catalog)
  = select_column_names old_catalog
    ++ missing ["manager_notes"; "response_date"] (select_column_names old_catalog)
  ∧ select_indexnames (migrated old_catalog)
    = select_indexnames old_catalog
      ++ missing ["idx_training_requests_employee"; "idx_training_requests_manager";
                  "idx_training_requests_status"]
                 (select_indexnames old_catalog).
Proof.
  eapply (migration_repairs_table accepts_all old_catalog []).
  - by eexists.
  - apply migrated_run.
Defined.

(** What the repair of [old_catalog] comes to. *)
Example migration_repairs_old_catalog :
  select_column_names (migrated old_catalog)
  = ["id"; "training_id"; "employee_empid"; "manager_empid"; "request_date";
     "status"; "manager_notes"; "response_date"]
  ∧ select_indexnames (migrated old_catalog)
    = ["idx_training_requests_manager"; "idx_training_requests_employee";
       "idx_training_requests_status"]
  ∧ tables (migrated old_catalog) !! "users" = tables old_catalog !! "users".
Proof. by vm_compute. Qed.

End migration_examples.
